(** * Announcements router of the High School Management System API

    A shallow embedding of [src/backend/routers/announcements.py] and the
    properties of its six endpoints.

    Conventions.
    - A Python [str] is a [string]; every character stands for one code
      point below 256, so that the order on code points, the order on
      UTF-8 encodings and [String.compare] agree.
    - A MongoDB document (a Python [dict]) is a [gmap string value].
    - A collection is the list of its documents in natural order.
    - An endpoint is a computation in the monad [M]: it reads and writes
      the [world] (the two collections, the server log, the clock and the
      behaviour of the database driver) and either returns or raises. *)

From Stdlib Require Import ZArith NArith String Ascii List Permutation DecimalString.
From Stdlib Require OrderedTypeEx.
From stdpp Require Import gmap strings list sorting.


(** ** Python strings *)

Module Str.

(** [str.isspace] on the code points below 256. *)
Definition isspace (c : ascii) : bool :=
  let n := N_of_ascii c in
  ((9 <=? n) && (n <=? 13) || (28 <=? n) && (n <=? 32)
   || (n =? 133) || (n =? 160))%N.

(** [s.lstrip()] *)
Fixpoint lstrip (s : string) : string :=
  match s with
  | EmptyString => EmptyString
  | String c s' => if isspace c then lstrip s' else s
  end.

(** [s.rstrip()] *)
Fixpoint rstrip (s : string) : string :=
  match s with
  | EmptyString => EmptyString
  | String c s' =>
      match rstrip s' with
      | EmptyString => if isspace c then EmptyString else String c EmptyString
      | r => String c r
      end
  end.

(** [s.strip()] *)
Definition strip (s : string) : string := rstrip (lstrip s).

(** [s.replace(c, by)] for a one-character pattern: every occurrence. *)
Fixpoint replace (c : ascii) (by_ : string) (s : string) : string :=
  match s with
  | EmptyString => EmptyString
  | String x s' =>
      if Ascii.eqb x c then by_ +:+ replace c by_ s'
      else String x (replace c by_ s')
  end.

(** Every character of [s] is white space. *)
Fixpoint blank (s : string) : bool :=
  match s with
  | EmptyString => true
  | String c s' => isspace c && blank s'
  end.

(** First and last character, when there is one. *)
Definition first (s : string) : option ascii :=
  match s with EmptyString => None | String c _ => Some c end.

Fixpoint last (s : string) : option ascii :=
  match s with
  | EmptyString => None
  | String c EmptyString => Some c
  | String _ s' => last s'
  end.

(** [c in s] *)
Fixpoint occurs (c : ascii) (s : string) : bool :=
  match s with
  | EmptyString => false
  | String x s' => Ascii.eqb x c || occurs c s'
  end.

(** The normalisation the specification describes: a trailing ["Z"] is
    written ["+00:00"]. *)
Fixpoint trailing_Z (s : string) : string :=
  match s with
  | EmptyString => EmptyString
  | String c EmptyString =>
      if Ascii.eqb c "Z" then "+00:00" else String c EmptyString
  | String c s' => String c (trailing_Z s')
  end.

(** Truth value of a string: [bool(s)]. *)
Definition truthy (s : string) : bool :=
  match s with EmptyString => false | _ => true end.

End Str.

(** ** BSON values and documents *)

(** The values the endpoints read and write.  An [ObjectId] is the
    number that its bytes write, see [Oid.pack] below. *)
Inductive value :=
| VNull
| VBool (b : bool)
| VInt (n : Z)
| VStr (s : string)
| VOid (o : N).

#[global] Instance value_eq_dec : EqDecision value.
Proof. solve_decision. Defined.

Abbreviation doc := (gmap string value).

(** A Python [Optional[str]] as a BSON value: [None] is null. *)
Definition of_optional (o : option string) : value :=
  match o with
  | None => VNull
  | Some s => VStr s
  end.

(** Python truth value of a stored value, as [not v] sees it. *)
Definition truthy (v : value) : bool :=
  match v with
  | VNull => false
  | VBool b => b
  | VInt n => negb (n =? 0)%Z
  | VStr s => Str.truthy s
  | VOid _ => true
  end.

(** Truth value of the result of [find_one]: [None] and the empty dict
    are false. *)
Definition found (r : option doc) : bool :=
  match r with
  | None => false
  | Some d => negb (bool_decide (d = ∅))
  end.

(** *** ObjectId *)

Module Oid.

Definition hex_value (c : ascii) : option N :=
  let n := N_of_ascii c in
  if ((48 <=? n) && (n <=? 57))%N then Some (n - 48)%N
  else if ((97 <=? n) && (n <=? 102))%N then Some (n - 87)%N
  else if ((65 <=? n) && (n <=? 70))%N then Some (n - 55)%N
  else None.

(** The white space [bytes.fromhex] skips: the ASCII characters tab,
    line feed, vertical tab, form feed, carriage return and space. *)
Definition isspace (c : ascii) : bool :=
  let n := N_of_ascii c in ((9 <=? n) && (n <=? 13) || (n =? 32))%N.

(** [bytes.fromhex(s)]: the bytes that pairs of hexadecimal digits
    write.  White space may stand before, between and after the pairs,
    not inside one; [None] stands for [ValueError]. *)
Fixpoint fromhex (s : string) : option (list N) :=
  match s with
  | EmptyString => Some []
  | String c s' =>
      if isspace c then fromhex s'
      else
        match hex_value c, s' with
        | Some top, String c' s'' =>
            match hex_value c' with
            | Some bot => cons (16 * top + bot)%N <$> fromhex s''
            | None => None
            end
        | _, _ => None
        end
  end.

(** Twelve bytes, as a number: [2 ^ 96]. *)
Definition bound : N := (2 ^ 96)%N.

(** The number that bytes write, the first byte the most significant. *)
Definition value (bytes : list N) : N :=
  fold_left (λ acc b, 256 * acc + b)%N bytes 0%N.

(** The [k] bytes that write [n], the first byte the most significant. *)
Fixpoint to_bytes (k : nat) (n : N) : list N :=
  match k with
  | O => []
  | S k' => to_bytes k' (n / 256)%N ++ [(n mod 256)%N]
  end.

(** An [ObjectId] as a number.  One of twelve bytes, as the driver
    generates them and as 24 hexadecimal digits write them, is the
    number below [2 ^ 96] that its bytes write.  [ObjectId(s)] also
    makes one of [k < 12] bytes from a string of 24 characters with
    white space in it: it is the number [(k + 1) * 2 ^ 96] plus what
    its bytes write, so that it is equal to no other. *)
Definition pack (bytes : list N) : N :=
  if (length bytes =? 12)%nat then value bytes
  else ((N.of_nat (length bytes) + 1) * bound + value bytes)%N.

(** The number of bytes of an [ObjectId]. *)
Definition size (o : N) : nat :=
  if (o <? bound)%N then 12%nat else N.to_nat (o / bound - 1).

Definition hex_digit (d : N) : ascii :=
  ascii_of_N (if (d <? 10)%N then 48 + d else 87 + d)%N.

Fixpoint to_hex (width : nat) (n : N) (acc : string) : string :=
  match width with
  | O => acc
  | S w => to_hex w (n / 16)%N (String (hex_digit (n mod 16)%N) acc)
  end.

End Oid.

(** [bson.ObjectId(s)] for a [str]: a string of 24 characters that
    [bytes.fromhex] reads; [None] stands for [InvalidId].  24
    hexadecimal digits give the twelve bytes they write. *)
Definition ObjectId (s : string) : option N :=
  if (String.length s =? 24)%nat then Oid.pack <$> Oid.fromhex s else None.

(** [str(oid)]: two lower-case hexadecimal digits for each byte, 24 for
    an [ObjectId] of twelve bytes. *)
Definition str_oid (o : N) : string :=
  Oid.to_hex (2 * Oid.size o) (o mod Oid.bound)%N EmptyString.

(** *** Order of BSON values *)

(** Position of the type of a value in the BSON comparison order. *)
Definition bson_rank (v : value) : N :=
  match v with
  | VNull => 2
  | VInt _ => 3
  | VStr _ => 4
  | VOid _ => 8
  | VBool _ => 9
  end.

(** [bson_leb a b]: [a] sorts before or with [b]; values of one type are
    compared by value, values of two types by the rank of their type. *)
Definition bson_leb (a b : value) : bool :=
  match a, b with
  | VNull, VNull => true
  | VBool x, VBool y => implb x y
  | VInt x, VInt y => (x <=? y)%Z
  | VStr x, VStr y => String.leb x y
  | VOid x, VOid y => (x <=? y)%N
  | _, _ => (bson_rank a <? bson_rank b)%N
  end.

(** The key a document is sorted by: a missing field sorts as null. *)
Definition sort_key (k : string) (d : doc) : value :=
  default VNull (d !! k).

(** [before k direction a b]: [a] may come before [b] in a cursor sorted
    by [k]; [direction] is [1] (ascending) or [-1] (descending). *)
Definition before (k : string) (direction : Z) (a b : doc) : Prop :=
  if (direction <? 0)%Z
  then bson_leb (sort_key k b) (sort_key k a) = true
  else bson_leb (sort_key k a) (sort_key k b) = true.

#[global] Instance before_dec k direction a b : Decision (before k direction a b).
Proof. unfold before. destruct (direction <? 0)%Z; apply _. Defined.

(** ** Queries *)

(** Modelled from the spec: the module [..database] with the two
    collections is not part of the sources; a collection supports
    "filtered find-with-sort, insert, update-by-id-with-set, delete-by-id,
    and find-one-by-id".  A filter document is the conjunction of its
    entries; the operators below are the ones the router writes. *)
Definition query := doc → bool.

(** [{k: v}]: the field equals [v]; for [v = None] the field is null or
    missing. *)
Definition q_is (k : string) (v : value) : query := λ d,
  match v, d !! k with
  | VNull, None => true
  | _, Some x => bool_decide (x = v)
  | _, None => false
  end.

(** [{k: {"$lte": v}}]: the field is present, of the type of [v], and
    at most [v]. *)
Definition q_lte (k : string) (v : value) : query := λ d,
  match d !! k with
  | Some x => (bson_rank x =? bson_rank v)%N && bson_leb x v
  | None => false
  end.

(** [{k: {"$gte": v}}] *)
Definition q_gte (k : string) (v : value) : query := λ d,
  match d !! k with
  | Some x => (bson_rank x =? bson_rank v)%N && bson_leb v x
  | None => false
  end.

(** [{"$or": [q1, ...]}] *)
Definition q_or (qs : list query) : query := λ d, existsb (λ q, q d) qs.

(** [{e1, e2, ...}]: a filter document with several entries; [{}] is
    [q_all []]. *)
Definition q_all (qs : list query) : query := λ d, forallb (λ q, q d) qs.

(** [str(v)] for a stored value. *)
Definition py_str (v : value) : string :=
  match v with
  | VNull => "None"
  | VBool true => "True"
  | VBool false => "False"
  | VInt n => DecimalString.NilZero.string_of_int (Z.to_int n)
  | VStr s => s
  | VOid o => str_oid o
  end.

(** ** The world of a request *)

Inductive exn :=
| HTTPException (status_code : Z) (detail : string)
| ValueError (msg : string)
| InvalidId (msg : string)
| Exception (msg : string).

(** [str(e)] *)
Definition str_exn (e : exn) : string :=
  match e with
  | HTTPException _ detail => detail
  | ValueError msg | InvalidId msg | Exception msg => msg
  end.

Inductive level := ERROR | INFO.

Inductive collection := announcements_collection | teachers_collection.

Record world := World {
  announcements : list doc;
  teachers : list doc;
  (** what [logger] has written, oldest first *)
  logged : list (level * string);
  (** what [datetime.now().isoformat()] returns *)
  clock : string;
  (** the [ObjectId] the driver gives the next inserted document *)
  generated_id : N;
  (** the coming calls of the driver: [Some msg] is a call that raises *)
  faults : list (option string)
}.

Definition documents (c : collection) (w : world) : list doc :=
  match c with
  | announcements_collection => announcements w
  | teachers_collection => teachers w
  end.

Definition set_documents (c : collection) (l : list doc) (w : world) : world :=
  match c with
  | announcements_collection =>
      World l (teachers w) (logged w) (clock w) (generated_id w) (faults w)
  | teachers_collection =>
      World (announcements w) l (logged w) (clock w) (generated_id w) (faults w)
  end.

Definition set_logged (l : list (level * string)) (w : world) : world :=
  World (announcements w) (teachers w) l (clock w) (generated_id w) (faults w).

Definition set_generated_id (o : N) (w : world) : world :=
  World (announcements w) (teachers w) (logged w) (clock w) o (faults w).

Definition set_faults (f : list (option string)) (w : world) : world :=
  World (announcements w) (teachers w) (logged w) (clock w) (generated_id w) f.

(** ** Computations that may raise *)

Inductive outcome (A : Type) :=
| Return (a : A)
| Raise (e : exn).
Arguments Return {A} a.
Arguments Raise {A} e.

Definition M (A : Type) : Type := world → outcome A * world.

Definition ret {A} (a : A) : M A := λ w, (Return a, w).

Definition raise {A} (e : exn) : M A := λ w, (Raise e, w).

Definition bind {A B} (m : M A) (k : A → M B) : M B := λ w,
  match m w with
  | (Return a, w') => k a w'
  | (Raise e, w') => (Raise e, w')
  end.

(** [try: m except <h>] where the handler re-raises what no clause
    catches. *)
Definition try_except {A} (m : M A) (h : exn → M A) : M A := λ w,
  match m w with
  | (Raise e, w') => h e w'
  | r => r
  end.

Notation "x <- m ;; k" := (bind m (λ x, k))
  (at level 100, m at next level, right associativity,
   format "'[v' x  <-  m  ;; '/' k ']'").
Notation "m ;;; k" := (bind m (λ _, k))
  (at level 100, right associativity,
   format "'[v' m  ;;; '/' k ']'").

(** [logger.error(msg)] and [logger.info(msg)] *)
Definition logger_error (msg : string) : M unit := λ w,
  (Return (), set_logged (logged w ++ [(ERROR, msg)]) w).

Definition logger_info (msg : string) : M unit := λ w,
  (Return (), set_logged (logged w ++ [(INFO, msg)]) w).

(** [datetime.now().isoformat()] *)
Definition datetime_now_isoformat : M string := λ w, (Return (clock w), w).

(** ** The collections *)

(** Modelled from the spec: the connection to the document store, which
    the missing module [..database] holds.  One call of the driver goes
    through, or raises what is scheduled for it.  In this model a call
    that raises has not touched the collection: a write that is applied
    and then reported as failed (a lost acknowledgement) is not
    modelled, and neither the source nor the spec says which of the two
    a failing write is.  What is stated below about a collection after
    a failure of the driver is therefore only that reads and refused
    requests leave it alone. *)
Definition driver_call : M unit := λ w,
  match faults w with
  | [] => (Return (), w)
  | None :: f => (Return (), set_faults f w)
  | Some msg :: f => (Raise (Exception msg), set_faults f w)
  end.

(** First document that matches, changed by [f]; [None] when no document
    matches. *)
Fixpoint update_first (q : query) (f : doc → doc) (l : list doc)
  : option (list doc) :=
  match l with
  | [] => None
  | d :: l' =>
      if q d then Some (f d :: l')
      else cons d <$> update_first q f l'
  end.

(** First document that matches, removed. *)
Fixpoint remove_first (q : query) (l : list doc) : option (list doc) :=
  match l with
  | [] => None
  | d :: l' =>
      if q d then Some l'
      else cons d <$> remove_first q l'
  end.

(** Modelled from the spec: "filtered find-with-sort" of a collection of
    the missing module [..database], [list(c.find(q).sort(k, direction))]. *)
Definition find_sort (c : collection) (q : query) (k : string) (direction : Z)
  : M (list doc) :=
  driver_call ;;;
  λ w, (Return (merge_sort (before k direction) (List.filter q (documents c w))), w).

(** Modelled from the spec: "find-one-by-id" of a collection of the
    missing module [..database], [c.find_one(q)]: the first document
    that matches, or [None]. *)
Definition find_one (c : collection) (q : query) : M (option doc) :=
  driver_call ;;;
  λ w, (Return (List.find q (documents c w)), w).

(** Modelled from the spec: "insert" of a collection of the missing
    module [..database], [c.insert_one(d).inserted_id].  A document
    without ["_id"] gets the generated one; "id uniqueness is guaranteed
    by the store": an ["_id"] that is in the collection already is a
    [DuplicateKeyError]. *)
Definition insert_one (c : collection) (d : doc) : M value :=
  driver_call ;;;
  λ w,
    let id := default (VOid (generated_id w)) (d !! "_id") in
    if existsb (q_is "_id" id) (documents c w)
    then (Raise (Exception "E11000 duplicate key error"), w)
    else (Return id,
          set_generated_id (N.succ (generated_id w))
            (set_documents c (documents c w ++ [<["_id" := id]> d]) w)).

(** Modelled from the spec: "update-by-id-with-set" of a collection of
    the missing module [..database],
    [c.update_one(q, {"$set": fields}).matched_count]: the fields are
    set on the first document that matches. *)
Definition update_one (c : collection) (q : query) (fields : doc) : M Z :=
  driver_call ;;;
  λ w,
    match update_first q (λ d, fields ∪ d) (documents c w) with
    | Some l => (Return 1%Z, set_documents c l w)
    | None => (Return 0%Z, w)
    end.

(** Modelled from the spec: "delete-by-id" of a collection of the
    missing module [..database], [c.delete_one(q).deleted_count]: the
    first document that matches is removed. *)
Definition delete_one (c : collection) (q : query) : M Z :=
  driver_call ;;;
  λ w,
    match remove_first q (documents c w) with
    | Some l => (Return 1%Z, set_documents c l w)
    | None => (Return 0%Z, w)
    end.

(** ** The router *)

(** [datetime.fromisoformat(s)] returns ([true]) or raises [ValueError]
    ([false]).  Which strings it reads depends on the version of Python,
    and the router uses nothing but this answer. *)
Class Datetime := fromisoformat : string → bool.

Section router.
Context `{!Datetime}.

Definition datetime_fromisoformat (s : string) : M unit :=
  if fromisoformat s then ret ()
  else raise (ValueError ("Invalid isoformat string: '" +:+ s +:+ "'")).

(** The block [# Verify teacher exists and is authenticated]. *)
Definition verify_teacher (teacher_username : string) : M unit :=
  teacher <- find_one teachers_collection (q_is "_id" (VStr teacher_username)) ;;
  if negb (found teacher)
  then raise (HTTPException 401 "Authentication required")
  else ret ().

(** The block [# Validate ObjectId]; the bare [except:] catches
    whatever [ObjectId] raises. *)
Definition validate_object_id (announcement_id : string) : M N :=
  try_except
    (match ObjectId announcement_id with
     | Some obj_id => ret obj_id
     | None => raise (InvalidId announcement_id)
     end)
    (λ _, raise (HTTPException 400 "Invalid announcement ID")).

(** The block [# Validate dates]. *)
Definition validate_dates (end_date : string) (start_date : option string)
  : M unit :=
  try_except
    (datetime_fromisoformat (Str.replace "Z" "+00:00" end_date) ;;;
     match start_date with
     | Some s =>
         if Str.truthy s
         then datetime_fromisoformat (Str.replace "Z" "+00:00" s)
         else ret ()
     | None => ret ()
     end)
    (λ e, match e with
          | ValueError _ => raise (HTTPException 400 "Invalid date format")
          | _ => raise e
          end).

(** The clauses [except HTTPException: raise] and
    [except Exception as e: logger.error(...); raise HTTPException(500, ...)]. *)
Definition internal_error {A} (what detail : string) (e : exn) : M A :=
  match e with
  | HTTPException _ _ => raise e
  | _ =>
      logger_error (what +:+ str_exn e) ;;;
      raise (HTTPException 500 detail)
  end.

(** The loop [# Convert ObjectId to string for JSON serialization],
    on one document. *)
Definition serialize (announcement : doc) : doc :=
  match announcement !! "_id" with
  | Some id => <["_id" := VStr (py_str id)]> announcement
  | None => announcement
  end.

(** [GET /announcements/active] *)
Definition get_active_announcements : M (list doc) :=
  try_except
    (current_time <- datetime_now_isoformat ;;
     let query :=
       q_all [ q_is "active" (VBool true);
               q_or [ q_is "start_date" VNull;
                      q_lte "start_date" (VStr current_time) ];
               q_gte "end_date" (VStr current_time) ] in
     announcements <-
       find_sort announcements_collection query "created_at" (-1) ;;
     ret (serialize <$> announcements))
    (λ e,
       logger_error ("Error fetching active announcements: " +:+ str_exn e) ;;;
       ret []).

(** [GET /announcements/all] *)
Definition get_all_announcements (teacher_username : string) : M (list doc) :=
  try_except
    (verify_teacher teacher_username ;;;
     announcements <-
       find_sort announcements_collection (q_all []) "created_at" (-1) ;;
     ret (serialize <$> announcements))
    (internal_error "Error fetching all announcements: "
                    "Failed to fetch announcements").

(** [POST /announcements/create] *)
Definition create_announcement
    (message end_date teacher_username : string)
    (start_date : option string) : M (string * doc) :=
  try_except
    (verify_teacher teacher_username ;;;
     validate_dates end_date start_date ;;;
     created_at <- datetime_now_isoformat ;;
     let announcement_doc : doc :=
       list_to_map [ ("message", VStr (Str.strip message));
                     ("start_date", of_optional start_date);
                     ("end_date", VStr end_date);
                     ("created_by", VStr teacher_username);
                     ("created_at", VStr created_at);
                     ("active", VBool true) ] in
     inserted_id <- insert_one announcements_collection announcement_doc ;;
     let announcement_doc :=
       <["_id" := VStr (py_str inserted_id)]> announcement_doc in
     logger_info ("Announcement created by " +:+ teacher_username) ;;;
     ret ("Announcement created successfully", announcement_doc))
    (internal_error "Error creating announcement: "
                    "Failed to create announcement").

(** [PUT /announcements/update/{announcement_id}] *)
Definition update_announcement
    (announcement_id message end_date teacher_username : string)
    (start_date : option string) (active : bool) : M string :=
  try_except
    (verify_teacher teacher_username ;;;
     obj_id <- validate_object_id announcement_id ;;
     validate_dates end_date start_date ;;;
     let update_doc : doc :=
       list_to_map [ ("message", VStr (Str.strip message));
                     ("start_date", of_optional start_date);
                     ("end_date", VStr end_date);
                     ("active", VBool active) ] in
     matched_count <-
       update_one announcements_collection (q_is "_id" (VOid obj_id)) update_doc ;;
     if (matched_count =? 0)%Z
     then raise (HTTPException 404 "Announcement not found")
     else
       logger_info ("Announcement " +:+ announcement_id +:+ " updated by "
                    +:+ teacher_username) ;;;
       ret "Announcement updated successfully")
    (internal_error "Error updating announcement: "
                    "Failed to update announcement").

(** The call of [update_announcement] for a request: a parameter the
    client leaves out takes the default of the signature,
    [start_date = None] and [active = True]. *)
Definition update_announcement_request
    (announcement_id message end_date teacher_username : string)
    (start_date : option string) (active : option bool) : M string :=
  update_announcement announcement_id message end_date teacher_username
    start_date (default true active).

(** [DELETE /announcements/delete/{announcement_id}] *)
Definition delete_announcement (announcement_id teacher_username : string)
  : M string :=
  try_except
    (verify_teacher teacher_username ;;;
     obj_id <- validate_object_id announcement_id ;;
     deleted_count <-
       delete_one announcements_collection (q_is "_id" (VOid obj_id)) ;;
     if (deleted_count =? 0)%Z
     then raise (HTTPException 404 "Announcement not found")
     else
       logger_info ("Announcement " +:+ announcement_id +:+ " deleted by "
                    +:+ teacher_username) ;;;
       ret "Announcement deleted successfully")
    (internal_error "Error deleting announcement: "
                    "Failed to delete announcement").

(** [PUT /announcements/toggle/{announcement_id}] *)
Definition toggle_announcement_status (announcement_id teacher_username : string)
  : M (string * bool) :=
  try_except
    (verify_teacher teacher_username ;;;
     obj_id <- validate_object_id announcement_id ;;
     announcement <-
       find_one announcements_collection (q_is "_id" (VOid obj_id)) ;;
     if negb (found announcement)
     then raise (HTTPException 404 "Announcement not found")
     else
       let new_status :=
         negb (truthy (default (VBool true) ((default ∅ announcement) !! "active"))) in
       matched_count <-
         update_one announcements_collection (q_is "_id" (VOid obj_id))
           {[ "active" := VBool new_status ]} ;;
       if (matched_count =? 0)%Z
       then raise (HTTPException 404 "Announcement not found")
       else
         let status_text := if new_status then "activated" else "deactivated" in
         logger_info ("Announcement " +:+ announcement_id +:+ " " +:+ status_text
                      +:+ " by " +:+ teacher_username) ;;;
         ret ("Announcement " +:+ status_text +:+ " successfully", new_status))
    (internal_error "Error toggling announcement status: "
                    "Failed to toggle announcement status").

End router.

(** ** A parser of ISO 8601 timestamps *)

(** [datetime.fromisoformat] as Python 3.7 to 3.10 define it, which
    reads the strings [datetime.isoformat()] writes:
    [YYYY-MM-DD], then optionally one separator character and
    [HH[:MM[:SS[.fff[fff]]]]], then optionally an offset
    [+HH:MM[:SS[.ffffff]]] or [-HH:MM[:SS[.ffffff]]].
    From Python 3.11 on [fromisoformat] reads more of ISO 8601
    (["20990101"], a fraction of any length, ["+0000"], a literal
    ["Z"]), so this parser is one instance of [Datetime] among others:
    the theorems are stated for any instance, and this one only
    evaluates the examples. *)
Module Iso.

Definition is_digit (c : ascii) : bool :=
  let n := N_of_ascii c in ((48 <=? n) && (n <=? 57))%N.

(** [n] decimal digits at the head of [s]: their value, and the rest. *)
Fixpoint number (n : nat) (acc : N) (s : string) : option (N * string) :=
  match n, s with
  | O, _ => Some (acc, s)
  | S n', String c s' =>
      if is_digit c then number n' (10 * acc + (N_of_ascii c - 48))%N s'
      else None
  | S _, EmptyString => None
  end.

Definition skip (c : ascii) (s : string) : option string :=
  match s with
  | String x s' => if Ascii.eqb x c then Some s' else None
  | EmptyString => None
  end.

Definition leap (y : N) : bool :=
  ((y mod 4 =? 0) && (negb (y mod 100 =? 0) || (y mod 400 =? 0)))%N.

Definition days_in_month (y m : N) : N :=
  if (m =? 2)%N then (if leap y then 29 else 28)%N
  else if ((m =? 4) || (m =? 6) || (m =? 9) || (m =? 11))%N then 30%N
  else 31%N.

Definition date (s : string) : option string :=
  '(y, s) ← number 4 0 s;
  s ← skip "-" s;
  '(m, s) ← number 2 0 s;
  s ← skip "-" s;
  '(d, s) ← number 2 0 s;
  if ((1 <=? y) && (1 <=? m) && (m <=? 12) && (1 <=? d)
      && (d <=? days_in_month y m))%N
  then Some s else None.

(** What may follow the minutes of an offset: nothing, or [:SS], or
    [:SS.ffffff]. *)
Definition offset_seconds (s : string) : bool :=
  match s with
  | EmptyString => true
  | _ =>
      match s ← skip ":" s; number 2 0 s with
      | Some (sec, EmptyString) => (sec <? 60)%N
      | Some (sec, r) =>
          (sec <? 60)%N
          && match s ← skip "." r; number 6 0 s with
             | Some (_, EmptyString) => true
             | _ => false
             end
      | None => false
      end
  end.

(** [HH:MM[:SS[.ffffff]]] with nothing after it. *)
Definition offset (s : string) : bool :=
  match
    '(h, s) ← number 2 0 s;
    s ← skip ":" s;
    '(m, s) ← number 2 0 s;
    Some (h, m, s)
  with
  | Some (h, m, r) => ((h <? 24) && (m <? 60))%N && offset_seconds r
  | None => false
  end.

(** What may follow the time: nothing, or a signed offset. *)
Definition zone (s : string) : bool :=
  match s with
  | EmptyString => true
  | String c s' =>
      (Ascii.eqb c "+" || Ascii.eqb c "-") && offset s'
  end.

(** What may follow the seconds: a fraction of 3 or 6 digits, then the
    zone. *)
Definition fraction (s : string) : bool :=
  match skip "." s with
  | Some s' =>
      match number 6 0 s', number 3 0 s' with
      | Some (_, r), _ => zone r
      | None, Some (_, r) => zone r
      | None, None => false
      end
  | None => zone s
  end.

Definition seconds (s : string) : bool :=
  match skip ":" s with
  | Some s' =>
      match number 2 0 s' with
      | Some (sec, r) => (sec <? 60)%N && fraction r
      | None => false
      end
  | None => zone s
  end.

Definition minutes (s : string) : bool :=
  match skip ":" s with
  | Some s' =>
      match number 2 0 s' with
      | Some (m, r) => (m <? 60)%N && seconds r
      | None => false
      end
  | None => zone s
  end.

Definition time (s : string) : bool :=
  match number 2 0 s with
  | Some (h, r) => (h <? 24)%N && minutes r
  | None => false
  end.

Definition parses (s : string) : bool :=
  match date s with
  | Some EmptyString => true
  | Some (String _ t) => time t
  | None => false
  end.

End Iso.

#[global] Instance iso_datetime : Datetime := Iso.parses.

(** ** The predicate of the specification *)

(** An announcement is "currently active" at [now]: [active] is true,
    [start_date] is absent, null or a timestamp at most [now], and
    [end_date] is a timestamp at least [now]; timestamps are compared
    as strings. *)
Definition currently_active (now : string) (d : doc) : Prop :=
  d !! "active" = Some (VBool true)
  ∧ (d !! "start_date" = None ∨ d !! "start_date" = Some VNull
     ∨ ∃ s, d !! "start_date" = Some (VStr s) ∧ String.leb s now = true)
  ∧ ∃ e, d !! "end_date" = Some (VStr e) ∧ String.leb now e = true.

(** The teacher directory knows [teacher_username]. *)
Definition teacher_exists (teacher_username : string) (w : world) : Prop :=
  ∃ t, t ∈ teachers w ∧ t !! "_id" = Some (VStr teacher_username).

(** No call of the driver is scheduled to fail. *)
Definition healthy (w : world) : Prop := faults w = [].

(** The collections of two worlds are the same. *)
Definition same_store (w w' : world) : Prop :=
  announcements w' = announcements w ∧ teachers w' = teachers w.

#[global] Instance currently_active_dec now d : Decision (currently_active now d).
Proof.
  unfold currently_active.
  apply and_dec; [apply _|]. apply and_dec.
  - destruct (d !! "start_date") as [[| | |s|]|];
      try (left; by auto); try (right; by intros [|[|(? & [=] & _)]]).
    destruct (String.leb s now) eqn:Hs.
    + left. right. right. by exists s.
    + right. intros [|[|(? & [= <-] & ?)]]; congruence.
  - destruct (d !! "end_date") as [[| | |e|]|];
      try (right; by intros (? & [=] & _)).
    destruct (String.leb now e) eqn:He.
    + left. by exists e.
    + right. intros (? & [= <-] & ?). congruence.
Defined.

(** [find_one] on the teacher directory gives a teacher. *)
Definition teacher_known (teacher_username : string) (w : world) : bool :=
  found (List.find (q_is "_id" (VStr teacher_username)) (teachers w)).

(** [end_date], and [start_date] when it is given and not empty, are
    read by [fromisoformat] once every ["Z"] is written ["+00:00"]. *)
Definition dates_parse `{!Datetime} (end_date : string)
    (start_date : option string) : bool :=
  fromisoformat (Str.replace "Z" "+00:00" end_date)
  && match start_date with
     | Some s =>
         if Str.truthy s then fromisoformat (Str.replace "Z" "+00:00" s)
         else true
     | None => true
     end.

(** No two documents of a collection have the same ["_id"]. *)
Definition unique_ids (l : list doc) : Prop :=
  NoDup ((λ d : doc, d !! "_id") <$> l).

(** The world with nothing scheduled for the driver. *)
Definition heal (w : world) : world := set_faults [] w.

(** The document [create_announcement] builds, before the driver adds
    its ["_id"]. *)
Definition new_announcement (message end_date teacher_username : string)
    (start_date : option string) (created_at : string) : doc :=
  list_to_map [ ("message", VStr (Str.strip message));
                ("start_date", of_optional start_date);
                ("end_date", VStr end_date);
                ("created_by", VStr teacher_username);
                ("created_at", VStr created_at);
                ("active", VBool true) ].

(** The fields [update_announcement] sets. *)
Definition updated_fields (message end_date : string)
    (start_date : option string) (active : bool) : doc :=
  list_to_map [ ("message", VStr (Str.strip message));
                ("start_date", of_optional start_date);
                ("end_date", VStr end_date);
                ("active", VBool active) ].

(** The value [toggle_announcement_status] reads as the active flag of
    a document: a document without the field counts as active. *)
Definition active_flag (d : doc) : bool :=
  truthy (default (VBool true) (d !! "active")).

(** A computation that returns in a world returns the same in the healed
    world, with the same effect. *)
Definition steady {A} (m : M A) : Prop :=
  ∀ w a w', m w = (Return a, w') → m (heal w) = (Return a, heal w').

(** [m] is [s] without its leading and trailing white space. *)
Definition stripped_of (s m : string) : Prop :=
  (∃ pre post, s = pre +:+ m +:+ post
               ∧ Str.blank pre = true ∧ Str.blank post = true)
  ∧ (∀ c, Str.first m = Some c → Str.isspace c = false)
  ∧ (∀ c, Str.last m = Some c → Str.isspace c = false).

(** No document of [l] has the identifier [id]. *)
Definition absent (id : N) (l : list doc) : Prop :=
  Forall (λ d : doc, d !! "_id" ≠ Some (VOid id)) l.

(** ** A small school *)

Module Example.

Definition teacher : doc :=
  list_to_map [ ("_id", VStr "t1"); ("display_name", VStr "Ms. Turner") ].

Definition expired : doc :=
  list_to_map [ ("_id", VOid 1); ("message", VStr "Sports day");
                ("start_date", VNull); ("end_date", VStr "2000-06-01T00:00:00");
                ("created_by", VStr "t1");
                ("created_at", VStr "2000-05-01T08:00:00"); ("active", VBool true) ].

Definition running : doc :=
  list_to_map [ ("_id", VOid 2); ("message", VStr "Exam Friday");
                ("start_date", VStr "2024-01-01T00:00:00");
                ("end_date", VStr "2099-01-01T00:00:00");
                ("created_by", VStr "t1");
                ("created_at", VStr "2023-12-20T08:00:00"); ("active", VBool true) ].

Definition legacy : doc :=
  list_to_map [ ("_id", VOid 3); ("message", VStr "Library closed");
                ("end_date", VStr "2099-01-01T00:00:00");
                ("created_by", VStr "t1");
                ("created_at", VStr "2019-09-01T08:00:00") ].

Definition switched_off : doc :=
  list_to_map [ ("_id", VOid 4); ("message", VStr "Bake sale");
                ("start_date", VNull); ("end_date", VStr "2099-01-01T00:00:00");
                ("created_by", VStr "t1");
                ("created_at", VStr "2024-02-01T08:00:00"); ("active", VBool false) ].

Definition school : world :=
  {| announcements := [expired; running; legacy; switched_off];
     teachers := [teacher];
     logged := [];
     clock := "2024-05-05T10:00:00.123456";
     generated_id := 255;
     faults := [] |}.

(** The school while the database is down. *)
Definition school_down : world :=
  set_faults [Some "connection refused"] school.

End Example.

(** ** The driver in any world *)

(** What is scheduled for the next call of the driver, when it is a
    failure. *)
Definition next_failure (w : world) : option string :=
  match faults w with
  | Some msg :: _ => Some msg
  | _ => None
  end.

(** The world after one call of the driver. *)
Definition after_call (w : world) : world := set_faults (tail (faults w)) w.

(** What an endpoint does with an exception that is not an
    [HTTPException]: it logs it and raises 500. *)
Definition internal_failure {A} (what detail msg : string) (w : world)
  : outcome A * world :=
  (Raise (HTTPException 500 detail),
   set_logged (logged w ++ [(ERROR, what +:+ msg)]) w).

(** [e] is an [HTTPException] with one of the [allowed] statuses. *)
Definition router_status (allowed : list Z) (e : exn) : Prop :=
  ∃ status detail, e = HTTPException status detail ∧ status ∈ allowed.

(** What a request has written to the log: one [ERROR] entry when it
    raises 500, nothing when it raises anything else, and when it
    returns one [INFO] entry or, for an endpoint that logs no success,
    nothing. *)
Definition log_after {A} (info : bool) (w : world) (o : outcome A)
    (w' : world) : Prop :=
  match o with
  | Return _ =>
      if info then ∃ msg, logged w' = logged w ++ [(INFO, msg)]
      else logged w' = logged w
  | Raise (HTTPException 500 _) => ∃ msg, logged w' = logged w ++ [(ERROR, msg)]
  | Raise _ => logged w' = logged w
  end.

(** The size of an [ObjectId]: 12 bytes. *)
Definition oid_bound : N := (2 ^ 96)%N.

(** The window of an announcement created with [start_date] and
    [end_date] holds [now]. *)
Definition window_holds (start_date : option string) (end_date now : string)
  : Prop :=
  (start_date = None ∨ ∃ s, start_date = Some s ∧ String.leb s now = true)
  ∧ String.leb now end_date = true.

(** The dates of a stored announcement let it be shown at [now]: the
    two conditions of [currently_active] on [start_date] and [end_date]. *)
Definition in_window (now : string) (d : doc) : Prop :=
  (d !! "start_date" = None ∨ d !! "start_date" = Some VNull
   ∨ ∃ s, d !! "start_date" = Some (VStr s) ∧ String.leb s now = true)
  ∧ ∃ e, d !! "end_date" = Some (VStr e) ∧ String.leb now e = true.

(** The world at another time. *)
Definition set_clock (now : string) (w : world) : world :=
  World (announcements w) (teachers w) (logged w) now (generated_id w)
    (faults w).

(** Every announcement of [l] has an [ObjectId] of 12 bytes as ["_id"],
    as the documents the driver inserts have. *)
Definition object_ids (l : list doc) : Prop :=
  Forall (λ d : doc, ∃ o, d !! "_id" = Some (VOid o) ∧ (o < oid_bound)%N) l.

(** * Properties *)

(** ** The definitions on examples *)

Example strip_exam_friday : Str.strip " Exam Friday " = "Exam Friday".
Proof. reflexivity. Qed.

Example strip_keeps_inner_space :
  Str.strip "  a  b  " = "a  b" ∧ Str.strip "   " = "".
Proof. split; reflexivity. Qed.

Example replace_Z :
  Str.replace "Z" "+00:00" "2099-01-01T00:00:00Z" = "2099-01-01T00:00:00+00:00"
  ∧ Str.replace "Z" "+00:00" "2099-01-01T00:00:00" = "2099-01-01T00:00:00".
Proof. split; reflexivity. Qed.

Example ObjectId_examples :
  ObjectId "0000000000000000000000ff" = Some 255%N
  ∧ ObjectId "0000000000000000000000FF" = Some 255%N
  ∧ ObjectId (str_oid 255) = Some 255%N
  ∧ ObjectId "ff" = None
  ∧ ObjectId "no-such-id" = None
  ∧ ObjectId "00000000000000000000000g" = None
  ∧ ObjectId "00 00 00 00 00 00 00 ff " = Some (9 * oid_bound + 255)%N
  ∧ str_oid (9 * oid_bound + 255) = "00000000000000ff"
  ∧ ObjectId "0 0000000000000000000000" = None.
Proof. repeat split; reflexivity. Qed.

Example Iso_parses_examples :
  Iso.parses "2099-01-01T00:00:00" = true
  ∧ Iso.parses "2024-05-05T10:00:00.123456" = true
  ∧ Iso.parses "2099-01-01T00:00:00+00:00" = true
  ∧ Iso.parses "2099-01-01" = true
  ∧ Iso.parses "2023-02-29" = false
  ∧ Iso.parses "not-a-date" = false
  ∧ Iso.parses "" = false.
Proof. repeat split; reflexivity. Qed.

Example bson_order :
  bson_leb VNull (VStr "2024") = true
  ∧ bson_leb (VStr "2024-01-01T00:00:00") (VStr "2024-01-01T00:00:00.5") = true
  ∧ bson_leb (VStr "2024-01-02") (VStr "2024-01-01") = false
  ∧ bson_leb (VBool true) (VInt 7) = false.
Proof. repeat split; reflexivity. Qed.

(** ** The monad *)

Section monad.
Context {A B : Type}.

Lemma bind_Return (m : M A) (k : A → M B) w a w1 :
  m w = (Return a, w1) → bind m k w = k a w1.
Proof. unfold bind. by intros ->. Qed.

Lemma try_except_Return (m : M A) h w a w1 :
  m w = (Return a, w1) → try_except m h w = (Return a, w1).
Proof. unfold try_except. by intros ->. Qed.

Lemma bind_inv (m : M A) (k : A → M B) w b w' :
  bind m k w = (Return b, w') →
  ∃ a w1, m w = (Return a, w1) ∧ k a w1 = (Return b, w').
Proof.
  unfold bind. destruct (m w) as [[a|e] w1]; [eauto | discriminate].
Qed.
End monad.

(** ** Strings *)

Module StrFacts.
Import Str.

Lemma lstrip_split s :
  ∃ pre, s = pre +:+ lstrip s ∧ blank pre = true.
Proof.
  induction s as [|c s [pre [Hs Hb]]]; simpl.
  - by exists EmptyString.
  - destruct (isspace c) eqn:Hc.
    + exists (String c pre). simpl. rewrite Hc, Hb. split; [|done].
      change (String c s = String c (pre +:+ lstrip s)). by f_equal.
    + by exists EmptyString.
Qed.

Lemma rstrip_split s :
  ∃ post, s = rstrip s +:+ post ∧ blank post = true.
Proof.
  induction s as [|c s [post [Hs Hb]]]; simpl.
  - by exists EmptyString.
  - destruct (rstrip s) as [|x r] eqn:Hr.
    + destruct (isspace c) eqn:Hc.
      * exists (String c post). simpl. rewrite Hc, Hb. split; [|done].
        change (EmptyString +:+ post) with post in Hs. by subst s.
      * exists post. split; [|done].
        change (EmptyString +:+ post) with post in Hs.
        change (String c s = String c post). by f_equal.
    + exists post. split; [|done].
      change (String c s = String c (String x r +:+ post)). by f_equal.
Qed.

Lemma lstrip_first s c : first (lstrip s) = Some c → isspace c = false.
Proof.
  induction s as [|x s IH]; simpl; [done|].
  destruct (isspace x) eqn:Hx; [done|]. simpl. by intros [= <-].
Qed.

Lemma rstrip_last s c : last (rstrip s) = Some c → isspace c = false.
Proof.
  revert c. induction s as [|x s IH]; intros c; simpl; [done|].
  destruct (rstrip s) as [|y r] eqn:Hr.
  - destruct (isspace x) eqn:Hx; simpl; [done|]. by intros [= <-].
  - intros Hl. apply IH. exact Hl.
Qed.

Lemma rstrip_first s c :
  first (rstrip s) = Some c → first s = Some c.
Proof.
  destruct s as [|x s]; simpl; [done|].
  destruct (rstrip s); [destruct (isspace x)|]; simpl; done.
Qed.

(** [strip] removes a blank prefix and a blank suffix, and what is left
    neither starts nor ends with white space. *)
Lemma strip_spec s :
  (∃ pre post, s = pre +:+ strip s +:+ post
               ∧ blank pre = true ∧ blank post = true)
  ∧ (∀ c, first (strip s) = Some c → isspace c = false)
  ∧ (∀ c, last (strip s) = Some c → isspace c = false).
Proof.
  unfold strip. split; [|split].
  - destruct (lstrip_split s) as [pre [Hs Hpre]].
    destruct (rstrip_split (lstrip s)) as [post [Hl Hpost]].
    exists pre, post. split; [|done]. by rewrite <- Hl.
  - intros c Hc. apply rstrip_first in Hc. by apply lstrip_first in Hc.
  - apply rstrip_last.
Qed.

Lemma strip_blank s : blank s = true → strip s = EmptyString.
Proof.
  unfold strip. induction s as [|c s IH]; simpl; [done|].
  intros [Hc Hs]%andb_prop. rewrite Hc. auto.
Qed.

(** On a timestamp whose only ["Z"] is the last character, the router's
    [replace] is the normalisation the specification describes. *)
Lemma replace_no_Z s :
  occurs "Z" s = false → replace "Z" "+00:00" s = s.
Proof.
  induction s as [|c s IH]; simpl; [done|].
  intros [Hc Hs]%orb_false_iff. rewrite Hc. by rewrite IH.
Qed.

Lemma trailing_Z_no_Z s : occurs "Z" s = false → trailing_Z s = s.
Proof.
  induction s as [|c s IH]; [done|].
  intros [Hc Hs]%orb_false_iff. cbn [trailing_Z].
  destruct s as [|x s]; [by rewrite Hc|]. by rewrite IH.
Qed.

Lemma replace_trailing_Z s :
  occurs "Z" s = false →
  replace "Z" "+00:00" s = trailing_Z s
  ∧ replace "Z" "+00:00" (s +:+ "Z") = trailing_Z (s +:+ "Z").
Proof.
  intros Hs. split; [by rewrite replace_no_Z, trailing_Z_no_Z|].
  induction s as [|c s IH]; [done|].
  apply orb_false_iff in Hs as [Hc Hs].
  change (String c s +:+ "Z") with (String c (s +:+ "Z")).
  cbn [replace trailing_Z]. rewrite Hc, IH by done.
  by destruct s.
Qed.
End StrFacts.

(** ** Order of values *)

Lemma bson_leb_total a b : bson_leb a b = true ∨ bson_leb b a = true.
Proof.
  destruct a as [|x|x|x|x], b as [|y|y|y|y]; simpl; auto.
  - destruct x, y; auto.
  - destruct (Z.leb_spec x y); [by left|right]. apply Z.leb_le. lia.
  - apply String.leb_total.
  - destruct (N.leb_spec x y); [by left|right]. apply N.leb_le. lia.
Qed.

#[global] Instance before_total k direction : Total (before k direction).
Proof.
  intros a b. unfold before. destruct (direction <? 0)%Z.
  - destruct (bson_leb_total (sort_key k a) (sort_key k b)); auto.
  - apply bson_leb_total.
Qed.

(** ** Queries *)

Lemma q_is_true k v d :
  v ≠ VNull → q_is k v d = true ↔ d !! k = Some v.
Proof.
  intros Hv. unfold q_is. destruct (d !! k) as [x|].
  - destruct v; try done; rewrite bool_decide_eq_true;
      (split; [by intros ->|by intros [= ->]]).
  - by destruct v.
Qed.

Lemma q_is_false k v d :
  v ≠ VNull → q_is k v d = false ↔ d !! k ≠ Some v.
Proof.
  intros Hv. rewrite <- (q_is_true k v d Hv). by destruct (q_is k v d).
Qed.

Lemma q_is_null k d :
  q_is k VNull d = true ↔ d !! k = None ∨ d !! k = Some VNull.
Proof.
  unfold q_is. destruct (d !! k) as [x|].
  - rewrite bool_decide_eq_true. split; [intros ->; by right|].
    by intros [|[= ->]].
  - split; [by left|done].
Qed.

Lemma q_lte_str k s d :
  q_lte k (VStr s) d = true ↔ ∃ x, d !! k = Some (VStr x) ∧ String.leb x s = true.
Proof.
  unfold q_lte. destruct (d !! k) as [[| | |x|]|]; simpl;
    try (split; [done|by intros (? & [=] & ?)]).
  split; [intros Hx; by exists x|by intros (? & [= <-] & ?)].
Qed.

Lemma q_gte_str k s d :
  q_gte k (VStr s) d = true ↔ ∃ x, d !! k = Some (VStr x) ∧ String.leb s x = true.
Proof.
  unfold q_gte. destruct (d !! k) as [[| | |x|]|]; simpl;
    try (split; [done|by intros (? & [=] & ?)]).
  split; [intros Hx; by exists x|by intros (? & [= <-] & ?)].
Qed.

(** The filter of [get_active_announcements] decides the predicate of
    the specification. *)
Lemma active_query_spec now d :
  q_all [ q_is "active" (VBool true);
          q_or [ q_is "start_date" VNull; q_lte "start_date" (VStr now) ];
          q_gte "end_date" (VStr now) ] d = true
  ↔ currently_active now d.
Proof.
  unfold q_all, q_or, currently_active. cbn [forallb existsb].
  rewrite !andb_true_iff, !orb_true_iff, q_is_true, q_is_null, q_lte_str,
    q_gte_str by done.
  intuition discriminate.
Qed.

(** ** Lists of documents *)

Section first_match.
Variable q : query.

Lemma find_first l1 d l2 :
  Forall (λ x, q x = false) l1 → q d = true →
  List.find q (l1 ++ d :: l2) = Some d.
Proof.
  intros Hl1 Hd. induction Hl1 as [|x l1 Hx _ IH]; simpl.
  - by rewrite Hd.
  - by rewrite Hx.
Qed.

Lemma find_split l d :
  List.find q l = Some d →
  ∃ l1 l2, l = l1 ++ d :: l2 ∧ Forall (λ x, q x = false) l1 ∧ q d = true.
Proof.
  induction l as [|x l IH]; simpl; [done|].
  destruct (q x) eqn:Hx.
  - intros [= ->]. by exists [], l.
  - intros (l1 & l2 & -> & Hl1 & Hd)%IH.
    exists (x :: l1), l2. auto.
Qed.

Lemma find_None l :
  List.find q l = None ↔ Forall (λ x, q x = false) l.
Proof.
  induction l as [|x l IH]; simpl.
  - split; [constructor|done].
  - destruct (q x) eqn:Hx.
    + split; [done|]. inversion 1; congruence.
    + rewrite IH. split; [by constructor|]. by inversion 1.
Qed.

Lemma update_first_first f l1 d l2 :
  Forall (λ x, q x = false) l1 → q d = true →
  update_first q f (l1 ++ d :: l2) = Some (l1 ++ f d :: l2).
Proof.
  intros Hl1 Hd. induction Hl1 as [|x l1 Hx _ IH]; simpl.
  - by rewrite Hd.
  - by rewrite Hx, IH.
Qed.

Lemma update_first_None f l :
  Forall (λ x, q x = false) l → update_first q f l = None.
Proof.
  induction 1 as [|x l Hx _ IH]; simpl; [done|]. by rewrite Hx, IH.
Qed.

Lemma remove_first_first l1 d l2 :
  Forall (λ x, q x = false) l1 → q d = true →
  remove_first q (l1 ++ d :: l2) = Some (l1 ++ l2).
Proof.
  intros Hl1 Hd. induction Hl1 as [|x l1 Hx _ IH]; simpl.
  - by rewrite Hd.
  - by rewrite Hx, IH.
Qed.

Lemma remove_first_None l :
  Forall (λ x, q x = false) l → remove_first q l = None.
Proof.
  induction 1 as [|x l Hx _ IH]; simpl; [done|]. by rewrite Hx, IH.
Qed.

(** A list either has a first match or none. *)
Lemma first_match_cases l :
  Forall (λ x, q x = false) l
  ∨ ∃ l1 d l2, l = l1 ++ d :: l2 ∧ Forall (λ x, q x = false) l1 ∧ q d = true.
Proof.
  destruct (List.find q l) as [d|] eqn:Hf.
  - right. apply find_split in Hf as (l1 & l2 & ?). by exists l1, d, l2.
  - left. by apply find_None.
Qed.
End first_match.

(** ** The collections when the driver does not fail *)

Lemma teacher_known_exists u w :
  teacher_known u w = true ↔ teacher_exists u w.
Proof.
  unfold teacher_known, teacher_exists. split.
  - destruct (List.find _ _) as [t|] eqn:Hf; [|done]. intros _.
    apply find_some in Hf as [Hin Hq].
    exists t. split; [by apply list_elem_of_In|]. by apply q_is_true in Hq.
  - intros (t & Hin & Ht).
    destruct (List.find _ _) as [t'|] eqn:Hf.
    + apply find_some in Hf as [_ Hq]. apply q_is_true in Hq; [|done].
      simpl. apply negb_true_iff, bool_decide_eq_false.
      intros ->. by rewrite lookup_empty in Hq.
    + apply list_elem_of_In in Hin.
      eapply find_none in Hf; [|exact Hin].
      apply q_is_false in Hf; done.
Qed.

Lemma teacher_unknown u w :
  teacher_known u w = false ↔ ¬ teacher_exists u w.
Proof.
  rewrite <- teacher_known_exists. by destruct (teacher_known u w).
Qed.

Section healthy.
Context `{!Datetime}.
Variable w : world.
Hypothesis Hw : healthy w.

Lemma driver_call_healthy : driver_call w = (Return (), w).
Proof. unfold driver_call. by rewrite Hw. Qed.

Lemma find_sort_healthy c q k direction :
  find_sort c q k direction w
  = (Return (merge_sort (before k direction) (List.filter q (documents c w))), w).
Proof. unfold find_sort, bind. by rewrite driver_call_healthy. Qed.

Lemma find_one_healthy c q :
  find_one c q w = (Return (List.find q (documents c w)), w).
Proof. unfold find_one, bind. by rewrite driver_call_healthy. Qed.

Lemma insert_one_healthy c d :
  insert_one c d w
  = let id := default (VOid (generated_id w)) (d !! "_id") in
    if existsb (q_is "_id" id) (documents c w)
    then (Raise (Exception "E11000 duplicate key error"), w)
    else (Return id,
          set_generated_id (N.succ (generated_id w))
            (set_documents c (documents c w ++ [<["_id" := id]> d]) w)).
Proof. unfold insert_one, bind. by rewrite driver_call_healthy. Qed.

Lemma update_one_healthy c q fields :
  update_one c q fields w
  = match update_first q (λ d, fields ∪ d) (documents c w) with
    | Some l => (Return 1%Z, set_documents c l w)
    | None => (Return 0%Z, w)
    end.
Proof. unfold update_one, bind. by rewrite driver_call_healthy. Qed.

Lemma delete_one_healthy c q :
  delete_one c q w
  = match remove_first q (documents c w) with
    | Some l => (Return 1%Z, set_documents c l w)
    | None => (Return 0%Z, w)
    end.
Proof. unfold delete_one, bind. by rewrite driver_call_healthy. Qed.

Lemma verify_teacher_healthy u :
  verify_teacher u w
  = if teacher_known u w then (Return (), w)
    else (Raise (HTTPException 401 "Authentication required"), w).
Proof.
  unfold verify_teacher, bind. rewrite find_one_healthy.
  unfold teacher_known. simpl. by destruct (found _).
Qed.
End healthy.

Section blocks.
Context `{!Datetime}.

Lemma validate_object_id_eq announcement_id w :
  validate_object_id announcement_id w
  = match ObjectId announcement_id with
    | Some obj_id => (Return obj_id, w)
    | None => (Raise (HTTPException 400 "Invalid announcement ID"), w)
    end.
Proof.
  unfold validate_object_id, try_except. by destruct (ObjectId _).
Qed.

Lemma validate_dates_eq end_date start_date w :
  validate_dates end_date start_date w
  = if dates_parse end_date start_date then (Return (), w)
    else (Raise (HTTPException 400 "Invalid date format"), w).
Proof.
  unfold validate_dates, dates_parse, try_except, bind, datetime_fromisoformat.
  destruct (fromisoformat (Str.replace "Z" "+00:00" end_date)); simpl; [|done].
  destruct start_date as [s|]; [|done].
  destruct (Str.truthy s); [|done].
  by destruct (fromisoformat (Str.replace "Z" "+00:00" s)).
Qed.

Lemma internal_error_Raise {A} what detail e w :
  ∃ e' w', internal_error (A := A) what detail e w = (Raise e', w').
Proof. destruct e; simpl; eauto. Qed.
End blocks.

(** ** The endpoints when the driver does not fail *)

Section endpoints_healthy.
Context `{!Datetime}.
Variable w : world.
Hypothesis Hw : healthy w.

Lemma get_all_announcements_healthy u :
  get_all_announcements u w
  = if teacher_known u w
    then (Return (serialize <$>
            merge_sort (before "created_at" (-1))
              (List.filter (q_all []) (announcements w))), w)
    else (Raise (HTTPException 401 "Authentication required"), w).
Proof.
  unfold get_all_announcements, try_except, bind.
  rewrite verify_teacher_healthy by done.
  destruct (teacher_known u w); [|done].
  by rewrite find_sort_healthy.
Qed.

Lemma create_announcement_healthy message end_date u start_date :
  create_announcement message end_date u start_date w
  = if teacher_known u w then
      if dates_parse end_date start_date then
        let d := new_announcement message end_date u start_date (clock w) in
        if existsb (q_is "_id" (VOid (generated_id w))) (announcements w)
        then (Raise (HTTPException 500 "Failed to create announcement"),
              set_logged
                (logged w ++ [(ERROR, "Error creating announcement: E11000 duplicate key error")])
                w)
        else (Return ("Announcement created successfully",
                      <["_id" := VStr (str_oid (generated_id w))]> d),
              World (announcements w ++ [<["_id" := VOid (generated_id w)]> d])
                (teachers w)
                (logged w ++ [(INFO, "Announcement created by " +:+ u)])
                (clock w) (N.succ (generated_id w)) (faults w))
      else (Raise (HTTPException 400 "Invalid date format"), w)
    else (Raise (HTTPException 401 "Authentication required"), w).
Proof.
  unfold create_announcement, try_except, bind.
  rewrite verify_teacher_healthy by done.
  destruct (teacher_known u w); [|done].
  rewrite validate_dates_eq.
  destruct (dates_parse end_date start_date); [|done].
  unfold datetime_now_isoformat.
  rewrite insert_one_healthy by done.
  fold (new_announcement message end_date u start_date (clock w)).
  change (new_announcement message end_date u start_date (clock w) !! "_id")
    with (@None value).
  cbn [default documents].
  by destruct (existsb _ _).
Qed.

Lemma update_announcement_healthy announcement_id message end_date u
    start_date active :
  update_announcement announcement_id message end_date u start_date active w
  = if teacher_known u w then
      match ObjectId announcement_id with
      | Some obj_id =>
          if dates_parse end_date start_date then
            match update_first (q_is "_id" (VOid obj_id))
                    (λ d, updated_fields message end_date start_date active ∪ d)
                    (announcements w) with
            | Some l =>
                (Return "Announcement updated successfully",
                 World l (teachers w)
                   (logged w ++ [(INFO, "Announcement " +:+ announcement_id
                                        +:+ " updated by " +:+ u)])
                   (clock w) (generated_id w) (faults w))
            | None => (Raise (HTTPException 404 "Announcement not found"), w)
            end
          else (Raise (HTTPException 400 "Invalid date format"), w)
      | None => (Raise (HTTPException 400 "Invalid announcement ID"), w)
      end
    else (Raise (HTTPException 401 "Authentication required"), w).
Proof.
  unfold update_announcement, try_except, bind.
  rewrite verify_teacher_healthy by done.
  destruct (teacher_known u w); [|done].
  rewrite validate_object_id_eq.
  destruct (ObjectId announcement_id) as [obj_id|]; [|done].
  rewrite validate_dates_eq.
  destruct (dates_parse end_date start_date); [|done].
  rewrite update_one_healthy by done.
  fold (updated_fields message end_date start_date active).
  cbn [documents].
  by destruct (update_first _ _ _).
Qed.

Lemma delete_announcement_healthy announcement_id u :
  delete_announcement announcement_id u w
  = if teacher_known u w then
      match ObjectId announcement_id with
      | Some obj_id =>
          match remove_first (q_is "_id" (VOid obj_id)) (announcements w) with
          | Some l =>
              (Return "Announcement deleted successfully",
               World l (teachers w)
                 (logged w ++ [(INFO, "Announcement " +:+ announcement_id
                                      +:+ " deleted by " +:+ u)])
                 (clock w) (generated_id w) (faults w))
          | None => (Raise (HTTPException 404 "Announcement not found"), w)
          end
      | None => (Raise (HTTPException 400 "Invalid announcement ID"), w)
      end
    else (Raise (HTTPException 401 "Authentication required"), w).
Proof.
  unfold delete_announcement, try_except, bind.
  rewrite verify_teacher_healthy by done.
  destruct (teacher_known u w); [|done].
  rewrite validate_object_id_eq.
  destruct (ObjectId announcement_id) as [obj_id|]; [|done].
  rewrite delete_one_healthy by done.
  cbn [documents].
  by destruct (remove_first _ _).
Qed.
End endpoints_healthy.

Section toggle_healthy.
Context `{!Datetime}.
Variable w : world.
Hypothesis Hw : healthy w.

Lemma toggle_announcement_status_healthy announcement_id u :
  toggle_announcement_status announcement_id u w
  = if teacher_known u w then
      match ObjectId announcement_id with
      | Some obj_id =>
          match List.find (q_is "_id" (VOid obj_id)) (announcements w) with
          | Some a =>
              let new_status := negb (active_flag a) in
              let status_text :=
                if new_status then "activated" else "deactivated" in
              match update_first (q_is "_id" (VOid obj_id))
                      (λ d, {[ "active" := VBool new_status ]} ∪ d)
                      (announcements w) with
              | Some l =>
                  (Return ("Announcement " +:+ status_text +:+ " successfully",
                           new_status),
                   World l (teachers w)
                     (logged w ++ [(INFO, "Announcement " +:+ announcement_id
                                          +:+ " " +:+ status_text +:+ " by " +:+ u)])
                     (clock w) (generated_id w) (faults w))
              | None => (Raise (HTTPException 404 "Announcement not found"), w)
              end
          | None => (Raise (HTTPException 404 "Announcement not found"), w)
          end
      | None => (Raise (HTTPException 400 "Invalid announcement ID"), w)
      end
    else (Raise (HTTPException 401 "Authentication required"), w).
Proof.
  unfold toggle_announcement_status, try_except, bind.
  rewrite verify_teacher_healthy by done.
  destruct (teacher_known u w); [|done].
  rewrite validate_object_id_eq.
  destruct (ObjectId announcement_id) as [obj_id|]; [|done].
  rewrite find_one_healthy by done. cbn [documents].
  destruct (List.find _ _) as [a|] eqn:Hf; [|done].
  assert (found (Some a) = true) as ->.
  { apply find_some in Hf as [_ Hq]. apply q_is_true in Hq; [|done].
    simpl. apply negb_true_iff, bool_decide_eq_false.
    intros ->. by rewrite lookup_empty in Hq. }
  cbn [negb default]. fold (active_flag a).
  rewrite update_one_healthy by done. cbn [documents].
  by destruct (update_first _ _ _).
Qed.
End toggle_healthy.

(** ** Calls that return do so whatever is scheduled for the driver *)

Section steady.
Context `{!Datetime}.

Lemma heal_healthy w : healthy (heal w).
Proof. done. Qed.

Lemma steady_ret {A} (a : A) : steady (ret a).
Proof. by intros w b w' [= <- <-]. Qed.

Lemma steady_raise {A} e : steady (raise (A := A) e).
Proof. by intros w b w'. Qed.

Lemma steady_bind {A B} (m : M A) (k : A → M B) :
  steady m → (∀ a, steady (k a)) → steady (bind m k).
Proof.
  intros Hm Hk w b w' (a & w1 & H1 & H2)%bind_inv.
  erewrite bind_Return; [|by apply Hm]. by apply Hk.
Qed.

Lemma steady_try_except {A} (m : M A) h :
  steady m → (∀ e w, ∃ e' w', h e w = (Raise e', w')) →
  steady (try_except m h).
Proof.
  intros Hm Hh w a w'. unfold try_except at 1.
  destruct (m w) as [[b|e] w1] eqn:H1.
  - intros [= <- <-]. apply try_except_Return. by apply Hm.
  - destruct (Hh e w1) as (e' & w2 & ->). done.
Qed.

Lemma steady_driver_call : steady driver_call.
Proof.
  intros w [] w'. unfold driver_call at 1.
  destruct (faults w) as [|[msg|] f] eqn:Hf; [|done|]; by intros [= <-].
Qed.

Lemma steady_logger_info msg : steady (logger_info msg).
Proof. by intros w [] w' [= <-]. Qed.

Lemma steady_now : steady datetime_now_isoformat.
Proof. by intros w a w' [= <- <-]. Qed.

Lemma steady_find_sort c q k direction : steady (find_sort c q k direction).
Proof.
  apply steady_bind; [apply steady_driver_call|].
  intros _ w a w' [= <- <-]. by destruct c.
Qed.

Lemma steady_find_one c q : steady (find_one c q).
Proof.
  apply steady_bind; [apply steady_driver_call|].
  intros _ w a w' [= <- <-]. by destruct c.
Qed.

Lemma steady_insert_one c d : steady (insert_one c d).
Proof.
  apply steady_bind; [apply steady_driver_call|].
  intros _ w a w'. destruct c; cbn;
    destruct (existsb _ _); by intros [= <- <-].
Qed.

Lemma steady_update_one c q fields : steady (update_one c q fields).
Proof.
  apply steady_bind; [apply steady_driver_call|].
  intros _ w a w'. destruct c; cbn;
    destruct (update_first _ _ _); by intros [= <- <-].
Qed.

Lemma steady_delete_one c q : steady (delete_one c q).
Proof.
  apply steady_bind; [apply steady_driver_call|].
  intros _ w a w'. destruct c; cbn;
    destruct (remove_first _ _); by intros [= <- <-].
Qed.

Lemma steady_verify_teacher u : steady (verify_teacher u).
Proof.
  apply steady_bind; [apply steady_find_one|].
  intros t. destruct (negb (found t)); [apply steady_raise|apply steady_ret].
Qed.

Lemma steady_validate_object_id announcement_id :
  steady (validate_object_id announcement_id).
Proof.
  intros w a w'. rewrite !validate_object_id_eq.
  destruct (ObjectId _); by intros [= <- <-].
Qed.

Lemma steady_validate_dates end_date start_date :
  steady (validate_dates end_date start_date).
Proof.
  intros w a w'. rewrite !validate_dates_eq.
  destruct (dates_parse _ _); by intros [= <- <-].
Qed.

Create HintDb steady.
Local Hint Resolve steady_ret steady_raise steady_driver_call
  steady_logger_info steady_now steady_find_sort steady_find_one
  steady_insert_one steady_update_one steady_delete_one
  steady_verify_teacher steady_validate_object_id steady_validate_dates
  : steady.

Local Ltac steady_step :=
  first [ solve [auto with steady]
        | apply steady_try_except; [|intros; apply internal_error_Raise]
        | apply steady_bind; [|intros ?]
        | match goal with |- steady (if ?b then _ else _) => destruct b end ].

Lemma steady_get_all_announcements u : steady (get_all_announcements u).
Proof. unfold get_all_announcements. repeat steady_step. Qed.

Lemma steady_create_announcement message end_date u start_date :
  steady (create_announcement message end_date u start_date).
Proof. unfold create_announcement. repeat steady_step. Qed.

Lemma steady_update_announcement announcement_id message end_date u
    start_date active :
  steady (update_announcement announcement_id message end_date u
            start_date active).
Proof. unfold update_announcement. repeat steady_step. Qed.

Lemma steady_delete_announcement announcement_id u :
  steady (delete_announcement announcement_id u).
Proof. unfold delete_announcement. repeat steady_step. Qed.

Lemma steady_toggle_announcement_status announcement_id u :
  steady (toggle_announcement_status announcement_id u).
Proof. unfold toggle_announcement_status. repeat steady_step. Qed.
End steady.

(** ** Sorting *)

Lemma string_leb_cases a b :
  String.leb a b = true ↔ a = b ∨ OrderedTypeEx.String_as_OT.lt a b.
Proof.
  unfold String.leb.
  rewrite <- OrderedTypeEx.String_as_OT.cmp_lt,
    <- OrderedTypeEx.String_as_OT.cmp_eq.
  unfold OrderedTypeEx.String_as_OT.cmp.
  destruct (String.compare a b); intuition congruence.
Qed.

Lemma string_leb_trans a b c :
  String.leb a b = true → String.leb b c = true → String.leb a c = true.
Proof.
  rewrite !string_leb_cases. intros [->|Hab] [->|Hbc]; auto.
  right. eapply OrderedTypeEx.String_as_OT.lt_trans; eauto.
Qed.

Lemma bson_leb_trans a b c :
  bson_leb a b = true → bson_leb b c = true → bson_leb a c = true.
Proof.
  destruct a as [|x|x|x|x], b as [|y|y|y|y], c as [|z|z|z|z];
    simpl; try done.
  - by destruct x, y, z.
  - rewrite !Z.leb_le. lia.
  - apply string_leb_trans.
  - rewrite !N.leb_le. lia.
Qed.

#[global] Instance before_trans k direction : Transitive (before k direction).
Proof.
  intros a b c. unfold before. destruct (direction <? 0)%Z; intros H1 H2.
  - eapply bson_leb_trans; eauto.
  - eapply bson_leb_trans; eauto.
Qed.

(** ** Serialization *)

Lemma serialize_lookup_ne (d : doc) k :
  k ≠ "_id" → serialize d !! k = d !! k.
Proof.
  intros Hk. unfold serialize. destruct (d !! "_id"); [|done].
  by rewrite lookup_insert_ne.
Qed.

Lemma serialize_before k direction (a b : doc) :
  k ≠ "_id" →
  before k direction a b → before k direction (serialize a) (serialize b).
Proof.
  intros Hk. unfold before, sort_key. by rewrite !serialize_lookup_ne.
Qed.

Lemma serialize_currently_active now (d : doc) :
  currently_active now (serialize d) ↔ currently_active now d.
Proof. unfold currently_active. by rewrite !serialize_lookup_ne. Qed.

Lemma filter_query (q : query) (P : doc → Prop) `{!∀ d, Decision (P d)} l :
  (∀ d, q d = true ↔ P d) → List.filter q l = filter P l.
Proof.
  intros Hq. induction l as [|d l IH]; [done|].
  simpl. rewrite filter_cons, IH.
  destruct (q d) eqn:Hd; destruct (decide (P d)) as [HP|HP]; try done.
  - by apply Hq in Hd.
  - apply Hq in HP. congruence.
Qed.

Lemma filter_everything (l : list doc) : List.filter (q_all []) l = l.
Proof. induction l as [|d l IH]; simpl; [done|]. by rewrite IH. Qed.

(** ** [GET /announcements/active] *)

(** What the query of [get_active_announcements] selects from a store. *)
Lemma active_selection now (store : list doc) :
  let l := merge_sort (before "created_at" (-1))
             (List.filter
                (q_all [ q_is "active" (VBool true);
                         q_or [ q_is "start_date" VNull;
                                q_lte "start_date" (VStr now) ];
                         q_gte "end_date" (VStr now) ])
                store) in
  l ≡ₚ filter (currently_active now) store
  ∧ ∀ d, d ∈ store →
      (serialize d ∈ serialize <$> l ↔ currently_active now d).
Proof.
  intros l.
  assert (l ≡ₚ filter (currently_active now) store) as Hperm.
  { unfold l. rewrite merge_sort_Permutation.
    by rewrite (filter_query _ (currently_active now))
      by apply active_query_spec. }
  split; [exact Hperm|].
  intros d Hd. rewrite list_elem_of_fmap. split.
  - intros (d' & Heq & Hd'). rewrite Hperm in Hd'.
    apply list_elem_of_filter in Hd' as [Hact _].
    apply serialize_currently_active. rewrite Heq.
    by apply serialize_currently_active.
  - intros Hact. exists d. split; [done|].
    rewrite Hperm. by apply list_elem_of_filter.
Qed.

(** C1. Whenever the driver does not fail during the query,
    [get_active_announcements] returns exactly the announcements of the
    store that are currently active at the instant of the call, each
    with its ["_id"] written as a string: [active] is true, [start_date]
    is absent, null or at most now, and [end_date] is at least now,
    timestamps compared as strings.  Every such announcement is in the
    result, with its multiplicity, and no other is; the collections are
    left as they are. *)
Theorem get_active_announcements_exact w :
  (∀ msg f, faults w ≠ Some msg :: f) →
  ∃ l w',
    get_active_announcements w = (Return (serialize <$> l), w')
    ∧ same_store w w'
    ∧ l ≡ₚ filter (currently_active (clock w)) (announcements w)
    ∧ ∀ d, d ∈ announcements w →
        (serialize d ∈ serialize <$> l ↔ currently_active (clock w) d).
Proof.
  intros Hgoes.
  unfold get_active_announcements, try_except, bind, datetime_now_isoformat,
    find_sort, bind, driver_call.
  destruct (faults w) as [|[msg|] f] eqn:Hf.
  - eexists _, w. split; [reflexivity|]. split; [done|].
    apply active_selection.
  - by destruct (Hgoes msg f).
  - eexists _, (set_faults f w). split; [reflexivity|]. split; [done|].
    apply (active_selection (clock w) (announcements w)).
Qed.

Lemma get_active_announcements_exact_witness :
  (∀ msg f, faults Example.school ≠ Some msg :: f)
  ∧ ∃ l w',
      get_active_announcements Example.school = (Return (serialize <$> l), w')
      ∧ same_store Example.school w'
      ∧ l ≡ₚ filter (currently_active (clock Example.school))
               (announcements Example.school)
      ∧ ∀ d, d ∈ announcements Example.school →
          (serialize d ∈ serialize <$> l
           ↔ currently_active (clock Example.school) d).
Proof.
  assert (∀ msg f, faults Example.school ≠ Some msg :: f) as Hgoes
    by (intros msg f; discriminate).
  split; [exact Hgoes|].
  exact (get_active_announcements_exact Example.school Hgoes).
Defined.

(** At the time of the example only the running announcement is shown:
    one is expired, one is switched off, and one has no [active] flag. *)
Example get_active_announcements_school :
  (get_active_announcements Example.school).1
  = Return [ <["_id" := VStr "000000000000000000000002"]> Example.running ].
Proof. vm_compute. reflexivity. Qed.

(** C2. [get_active_announcements] returns in every world and never
    raises; it leaves both collections as they are; and whenever the
    driver fails during the query it returns the empty list and writes
    the failure to the server log. *)
Theorem get_active_announcements_never_raises w :
  ∃ r w',
    get_active_announcements w = (Return r, w')
    ∧ same_store w w'
    ∧ (∀ msg f, faults w = Some msg :: f →
         r = []
         ∧ logged w'
           = logged w ++ [(ERROR, "Error fetching active announcements: " +:+ msg)]).
Proof.
  unfold get_active_announcements, try_except, bind, datetime_now_isoformat,
    find_sort, bind, driver_call.
  destruct (faults w) as [|[msg|] f] eqn:Hf.
  - eexists _, _. split; [reflexivity|]. split; [done|]. intros ? ? [=].
  - eexists _, _. split; [reflexivity|]. split; [done|].
    by intros ? ? [= <- <-].
  - eexists _, _. split; [reflexivity|]. split; [done|]. intros ? ? [=].
Qed.

Lemma get_active_announcements_never_raises_witness :
  ∃ w',
    get_active_announcements Example.school_down = (Return [], w')
    ∧ same_store Example.school_down w'.
Proof.
  destruct (get_active_announcements_never_raises Example.school_down)
    as (r & w' & Hrun & Hstore & Hfail).
  destruct (Hfail "connection refused" [] eq_refl) as [-> _].
  by exists w'.
Defined.

(** ** [GET /announcements/all] *)

(** C5. When the driver does not fail, [get_all_announcements] raises
    401 for a [teacher_username] the teacher directory does not know;
    for a known one it returns every announcement of the store, the
    inactive and the expired ones too, each with its ["_id"] written as
    a string, and the result is sorted by [created_at], newest first:
    every announcement comes before all those that are not newer. *)
Theorem get_all_announcements_sorted teacher_username w :
  healthy w →
  (¬ teacher_exists teacher_username w →
     get_all_announcements teacher_username w
     = (Raise (HTTPException 401 "Authentication required"), w))
  ∧ (teacher_exists teacher_username w →
     ∃ l,
       get_all_announcements teacher_username w = (Return (serialize <$> l), w)
       ∧ l ≡ₚ announcements w
       ∧ StronglySorted (before "created_at" (-1)) (serialize <$> l)).
Proof.
  intros Hw. rewrite get_all_announcements_healthy by done. split.
  - intros Hno%teacher_unknown. by rewrite Hno.
  - intros Hyes%teacher_known_exists. rewrite Hyes.
    eexists. split; [reflexivity|]. rewrite filter_everything. split.
    + apply merge_sort_Permutation.
    + eapply StronglySorted_fmap; [|apply StronglySorted_merge_sort; apply _].
      intros a b. by apply serialize_before.
Qed.

Lemma get_all_announcements_sorted_witness :
  healthy Example.school
  ∧ ¬ teacher_exists "mallory" Example.school
  ∧ get_all_announcements "mallory" Example.school
    = (Raise (HTTPException 401 "Authentication required"), Example.school)
  ∧ teacher_exists "t1" Example.school
  ∧ ∃ l,
      get_all_announcements "t1" Example.school
      = (Return (serialize <$> l), Example.school)
      ∧ l ≡ₚ announcements Example.school
      ∧ StronglySorted (before "created_at" (-1)) (serialize <$> l).
Proof.
  assert (healthy Example.school) as Hw by reflexivity.
  assert (¬ teacher_exists "mallory" Example.school) as Hno
    by (apply teacher_unknown; reflexivity).
  assert (teacher_exists "t1" Example.school) as Hyes
    by (apply teacher_known_exists; reflexivity).
  split; [exact Hw|]. split; [exact Hno|].
  split; [exact (proj1 (get_all_announcements_sorted "mallory" _ Hw) Hno)|].
  split; [exact Hyes|].
  exact (proj2 (get_all_announcements_sorted "t1" _ Hw) Hyes).
Defined.

(** ** [POST /announcements/create] *)

Lemma dates_parse_false `{!Datetime} end_date start_date :
  dates_parse end_date start_date = false
  ↔ fromisoformat (Str.replace "Z" "+00:00" end_date) = false
    ∨ ∃ s, start_date = Some s ∧ s ≠ EmptyString
           ∧ fromisoformat (Str.replace "Z" "+00:00" s) = false.
Proof.
  unfold dates_parse. rewrite andb_false_iff. split.
  - intros [He|Hs]; [by left|]. right.
    destruct start_date as [[|c s]|]; try done. by eexists.
  - intros [He|(s & -> & Hne & Hs)]; [by left|]. right.
    by destruct s.
Qed.

(** C3, as the code has it.  When the driver does not fail,
    [create_announcement] raises 401 for a teacher the directory does
    not know; for a known teacher it raises 400 "Invalid date format"
    when [fromisoformat] rejects [end_date], or a [start_date] that is
    given and is not the empty string, after ["Z"] is written
    ["+00:00"].  In both cases the world is the one before the call:
    nothing is persisted and no collection changes. *)
Theorem create_announcement_failure_atomic `{!Datetime}
    message end_date teacher_username start_date w :
  healthy w →
  (¬ teacher_exists teacher_username w →
     create_announcement message end_date teacher_username start_date w
     = (Raise (HTTPException 401 "Authentication required"), w))
  ∧ (teacher_exists teacher_username w →
     fromisoformat (Str.replace "Z" "+00:00" end_date) = false
     ∨ (∃ s, start_date = Some s ∧ s ≠ EmptyString
             ∧ fromisoformat (Str.replace "Z" "+00:00" s) = false) →
     create_announcement message end_date teacher_username start_date w
     = (Raise (HTTPException 400 "Invalid date format"), w)).
Proof.
  intros Hw. rewrite create_announcement_healthy by done. split.
  - intros Hno%teacher_unknown. by rewrite Hno.
  - intros Hyes%teacher_known_exists Hbad%dates_parse_false.
    by rewrite Hyes, Hbad.
Qed.

Lemma create_announcement_failure_atomic_witness :
  healthy Example.school
  ∧ ¬ teacher_exists "mallory" Example.school
  ∧ create_announcement "Exam Friday" "2099-01-01T00:00:00" "mallory" None
      Example.school
    = (Raise (HTTPException 401 "Authentication required"), Example.school)
  ∧ teacher_exists "t1" Example.school
  ∧ fromisoformat (Str.replace "Z" "+00:00" "not-a-date") = false
  ∧ create_announcement "Exam Friday" "not-a-date" "t1" None Example.school
    = (Raise (HTTPException 400 "Invalid date format"), Example.school).
Proof.
  assert (healthy Example.school) as Hw by reflexivity.
  assert (¬ teacher_exists "mallory" Example.school) as Hno
    by (apply teacher_unknown; reflexivity).
  assert (teacher_exists "t1" Example.school) as Hyes
    by (apply teacher_known_exists; reflexivity).
  split; [exact Hw|]. split; [exact Hno|].
  split;
    [exact (proj1 (create_announcement_failure_atomic "Exam Friday"
                     "2099-01-01T00:00:00" "mallory" None _ Hw) Hno)|].
  split; [exact Hyes|]. split; [reflexivity|].
  exact (proj2 (create_announcement_failure_atomic "Exam Friday"
                  "not-a-date" "t1" None _ Hw) Hyes (or_introl eq_refl)).
Defined.

(** C3 as it is stated fails, twice.  A [start_date] that is given as
    the empty string is not read by [fromisoformat], and yet the call
    returns and persists the announcement, with [start_date] the empty
    string.  And an [end_date] with a ["Z"] that is not its last
    character, which does not parse when only a trailing ["Z"] is
    normalised, is accepted, because every ["Z"] is replaced. *)
Lemma create_announcement_accepts_unparseable_dates :
  (fromisoformat (Str.trailing_Z "") = false
   ∧ (create_announcement "Exam Friday" "2099-01-01T00:00:00" "t1" (Some "")
        Example.school).1
     = Return ("Announcement created successfully",
               <["_id" := VStr "0000000000000000000000ff"]>
                 (new_announcement "Exam Friday" "2099-01-01T00:00:00" "t1"
                    (Some "") "2024-05-05T10:00:00.123456"))
   ∧ announcements
       (create_announcement "Exam Friday" "2099-01-01T00:00:00" "t1" (Some "")
          Example.school).2
     = announcements Example.school
       ++ [ <["_id" := VOid 255]>
              (new_announcement "Exam Friday" "2099-01-01T00:00:00" "t1"
                 (Some "") "2024-05-05T10:00:00.123456") ])
  ∧ (fromisoformat (Str.trailing_Z "2099-01-01T00:00:00Z:00") = false
     ∧ (create_announcement "Exam Friday" "2099-01-01T00:00:00Z:00" "t1" None
          Example.school).1
       = Return ("Announcement created successfully",
                 <["_id" := VStr "0000000000000000000000ff"]>
                   (new_announcement "Exam Friday" "2099-01-01T00:00:00Z:00"
                      "t1" None "2024-05-05T10:00:00.123456"))
     ∧ announcements
         (create_announcement "Exam Friday" "2099-01-01T00:00:00Z:00" "t1" None
            Example.school).2
       = announcements Example.school
         ++ [ <["_id" := VOid 255]>
                (new_announcement "Exam Friday" "2099-01-01T00:00:00Z:00" "t1"
                   None "2024-05-05T10:00:00.123456") ]).
Proof. repeat split; vm_compute; reflexivity. Qed.

Lemma absent_no_match id l :
  absent id l ↔ Forall (λ x, q_is "_id" (VOid id) x = false) l.
Proof.
  unfold absent. apply Forall_proper; [|done].
  intros d. by rewrite q_is_false.
Qed.

Lemma absent_existsb id l :
  existsb (q_is "_id" (VOid id)) l = false ↔ absent id l.
Proof.
  rewrite absent_no_match. induction l as [|d l IH]; simpl.
  - split; [constructor|done].
  - rewrite orb_false_iff, IH. split.
    + intros [? ?]. by constructor.
    + by inversion 1.
Qed.

(** The first document with the identifier [id], when there is one. *)
Lemma first_with_id id l :
  absent id l
  ∨ ∃ l1 d l2, l = l1 ++ d :: l2 ∧ absent id l1 ∧ d !! "_id" = Some (VOid id).
Proof.
  destruct (first_match_cases (q_is "_id" (VOid id)) l)
    as [Hno|(l1 & d & l2 & -> & Hl1 & Hd)].
  - left. by apply absent_no_match.
  - right. exists l1, d, l2. split; [done|]. split.
    + by apply absent_no_match.
    + by apply q_is_true in Hd.
Qed.

Lemma world_heal_inv a t lg c g f w' :
  World a t lg c g f = heal w' →
  announcements w' = a ∧ teachers w' = t ∧ logged w' = lg.
Proof. unfold heal, set_faults. by intros [= -> -> -> _ _ _]. Qed.

(** C4. Whenever [create_announcement] returns, the store has one more
    announcement, after the others: its [message] is the given one
    without leading and trailing white space, [start_date] is the given
    one or null, [end_date] and [created_by] are the given ones,
    [created_at] is the time of the call, [active] is true, and its
    ["_id"] is the identifier the driver generated, which no other
    announcement has; the returned record is the stored one with the
    ["_id"] written as a string.  No message is rejected: in a world
    where the driver does not fail, a known teacher with dates that
    parse and a fresh identifier creates an announcement whatever the
    message is, blank ones included. *)
Theorem create_announcement_record `{!Datetime}
    message end_date teacher_username start_date w :
  (∀ r w',
     create_announcement message end_date teacher_username start_date w
     = (Return r, w') →
     ∃ stored m,
       announcements w' = announcements w ++ [stored]
       ∧ teachers w' = teachers w
       ∧ stored !! "message" = Some (VStr m) ∧ stripped_of message m
       ∧ stored !! "start_date" = Some (of_optional start_date)
       ∧ stored !! "end_date" = Some (VStr end_date)
       ∧ stored !! "created_by" = Some (VStr teacher_username)
       ∧ stored !! "created_at" = Some (VStr (clock w))
       ∧ stored !! "active" = Some (VBool true)
       ∧ stored !! "_id" = Some (VOid (generated_id w))
       ∧ absent (generated_id w) (announcements w)
       ∧ r = ("Announcement created successfully",
              <["_id" := VStr (str_oid (generated_id w))]> stored))
  ∧ (healthy w → teacher_exists teacher_username w →
     dates_parse end_date start_date = true →
     absent (generated_id w) (announcements w) →
     ∃ r w',
       create_announcement message end_date teacher_username start_date w
       = (Return r, w')).
Proof.
  split.
  - intros r w' Hrun%steady_create_announcement.
    rewrite create_announcement_healthy in Hrun by apply heal_healthy.
    destruct (teacher_known _ _); [|done].
    destruct (dates_parse _ _); [|done].
    cbn zeta in Hrun.
    destruct (existsb _ _) eqn:Hfresh; [done|].
    apply pair_equal_spec in Hrun as [[= <-] (Ha & Ht & _)%world_heal_inv].
    exists (<["_id" := VOid (generated_id w)]>
              (new_announcement message end_date teacher_username start_date
                 (clock w))), (Str.strip message).
    split; [exact Ha|]. split; [exact Ht|].
    split; [reflexivity|]. split; [apply StrFacts.strip_spec|].
    do 6 (split; [reflexivity|]).
    split; [by apply absent_existsb|].
    by rewrite insert_insert_eq.
  - intros Hw Hyes%teacher_known_exists Hdates Hfresh%absent_existsb.
    rewrite create_announcement_healthy by done.
    rewrite Hyes, Hdates. cbn zeta. rewrite Hfresh. by eexists _, _.
Qed.

Lemma create_announcement_record_witness :
  healthy Example.school
  ∧ teacher_exists "t1" Example.school
  ∧ dates_parse "2099-01-01T00:00:00" None = true
  ∧ absent (generated_id Example.school) (announcements Example.school)
  ∧ ∃ r w',
      create_announcement " Exam Friday " "2099-01-01T00:00:00" "t1" None
        Example.school = (Return r, w')
      ∧ ∃ stored m,
          announcements w' = announcements Example.school ++ [stored]
          ∧ teachers w' = teachers Example.school
          ∧ stored !! "message" = Some (VStr m)
          ∧ stripped_of " Exam Friday " m
          ∧ stored !! "start_date" = Some VNull
          ∧ stored !! "end_date" = Some (VStr "2099-01-01T00:00:00")
          ∧ stored !! "created_by" = Some (VStr "t1")
          ∧ stored !! "created_at" = Some (VStr (clock Example.school))
          ∧ stored !! "active" = Some (VBool true)
          ∧ stored !! "_id" = Some (VOid (generated_id Example.school))
          ∧ absent (generated_id Example.school) (announcements Example.school)
          ∧ r = ("Announcement created successfully",
                 <["_id" := VStr (str_oid (generated_id Example.school))]> stored).
Proof.
  assert (healthy Example.school) as Hw by reflexivity.
  assert (teacher_exists "t1" Example.school) as Hyes
    by (apply teacher_known_exists; reflexivity).
  assert (dates_parse "2099-01-01T00:00:00" None = true) as Hdates
    by reflexivity.
  assert (absent (generated_id Example.school) (announcements Example.school))
    as Hfresh by (apply absent_existsb; reflexivity).
  do 4 (split; [assumption|]).
  destruct (create_announcement_record " Exam Friday " "2099-01-01T00:00:00"
              "t1" None Example.school) as [Hrecord Hreturns].
  destruct (Hreturns Hw Hyes Hdates Hfresh) as (r & w' & Hrun).
  exists r, w'. split; [exact Hrun|]. exact (Hrecord r w' Hrun).
Defined.

(** The scenario of the specification: the message is stored trimmed,
    with a null [start_date] and [active] true. *)
Example create_announcement_exam_friday :
  (create_announcement " Exam Friday " "2099-01-01T00:00:00" "t1" None
     Example.school).1
  = Return ("Announcement created successfully",
            list_to_map [ ("_id", VStr "0000000000000000000000ff");
                          ("message", VStr "Exam Friday");
                          ("start_date", VNull);
                          ("end_date", VStr "2099-01-01T00:00:00");
                          ("created_by", VStr "t1");
                          ("created_at", VStr "2024-05-05T10:00:00.123456");
                          ("active", VBool true) ]).
Proof. vm_compute. reflexivity. Qed.

(** A blank message is stored as the empty string. *)
Example create_announcement_blank_message :
  (create_announcement "   " "2099-01-01T00:00:00" "t1" None Example.school).1
  = Return ("Announcement created successfully",
            <["_id" := VStr "0000000000000000000000ff"]>
              (new_announcement "" "2099-01-01T00:00:00" "t1" None
                 "2024-05-05T10:00:00.123456")).
Proof. vm_compute. reflexivity. Qed.

(** ** [PUT /announcements/update/{announcement_id}] *)

Lemma updated_fields_other message end_date start_date active k :
  k ∉ ["message"; "start_date"; "end_date"; "active"] →
  updated_fields message end_date start_date active !! k = None.
Proof.
  intros Hk. unfold updated_fields. simpl.
  rewrite !lookup_insert_ne, lookup_empty; [done|..];
    intros <-; apply Hk; repeat constructor.
Qed.

(** What a call of [update_announcement] that returns has done: the
    first announcement with the identifier has the four fields set, and
    nothing else has changed. *)
Lemma update_announcement_effect `{!Datetime}
    announcement_id message end_date teacher_username start_date active
    w r w' :
  update_announcement announcement_id message end_date teacher_username
    start_date active w = (Return r, w') →
  ∃ obj_id l1 d l2,
    ObjectId announcement_id = Some obj_id
    ∧ announcements w = l1 ++ d :: l2
    ∧ absent obj_id l1
    ∧ d !! "_id" = Some (VOid obj_id)
    ∧ announcements w'
      = l1 ++ (updated_fields message end_date start_date active ∪ d) :: l2
    ∧ teachers w' = teachers w.
Proof.
  intros Hrun%steady_update_announcement.
  rewrite update_announcement_healthy in Hrun by apply heal_healthy.
  destruct (teacher_known _ _); [|done].
  destruct (ObjectId announcement_id) as [obj_id|]; [|done].
  destruct (dates_parse _ _); [|done].
  change (announcements (heal w)) with (announcements w) in Hrun.
  destruct (first_with_id obj_id (announcements w))
    as [Hno|(l1 & d & l2 & Hsplit & Hl1 & Hd)].
  - apply absent_no_match in Hno.
    by rewrite update_first_None in Hrun.
  - rewrite Hsplit, update_first_first in Hrun;
      [|by apply absent_no_match|by apply q_is_true].
    apply pair_equal_spec in Hrun as [_ (Ha & Ht & _)%world_heal_inv].
    by exists obj_id, l1, d, l2.
Qed.

(** C6. Whenever [update_announcement] returns, the store is the one
    before the call but for the first announcement with the identifier:
    there [message] is the given one without leading and trailing white
    space, [start_date] the given one or null, [end_date] and [active]
    the given ones, and every other field, [created_by], [created_at]
    and ["_id"] among them, is what it was.  Every other announcement
    and the teacher directory are unchanged. *)
Theorem update_announcement_frame `{!Datetime}
    announcement_id message end_date teacher_username start_date active
    w r w' :
  update_announcement announcement_id message end_date teacher_username
    start_date active w = (Return r, w') →
  ∃ obj_id l1 d l2 d' m,
    ObjectId announcement_id = Some obj_id
    ∧ announcements w = l1 ++ d :: l2
    ∧ absent obj_id l1
    ∧ d !! "_id" = Some (VOid obj_id)
    ∧ announcements w' = l1 ++ d' :: l2
    ∧ teachers w' = teachers w
    ∧ d' !! "message" = Some (VStr m) ∧ stripped_of message m
    ∧ d' !! "start_date" = Some (of_optional start_date)
    ∧ d' !! "end_date" = Some (VStr end_date)
    ∧ d' !! "active" = Some (VBool active)
    ∧ d' !! "created_by" = d !! "created_by"
    ∧ d' !! "created_at" = d !! "created_at"
    ∧ d' !! "_id" = d !! "_id"
    ∧ ∀ k, k ∉ ["message"; "start_date"; "end_date"; "active"] →
           d' !! k = d !! k.
Proof.
  intros (obj_id & l1 & d & l2 & Hid & Hsplit & Hl1 & Hd & Ha & Ht)
    %update_announcement_effect.
  exists obj_id, l1, d, l2,
    (updated_fields message end_date start_date active ∪ d),
    (Str.strip message).
  do 6 (split; [assumption|]).
  assert (∀ k, k ∉ ["message"; "start_date"; "end_date"; "active"] →
            (updated_fields message end_date start_date active ∪ d) !! k
            = d !! k) as Hframe.
  { intros k Hk. apply lookup_union_r. by apply updated_fields_other. }
  split; [by apply lookup_union_Some_l|].
  split; [apply StrFacts.strip_spec|].
  do 3 (split; [by apply lookup_union_Some_l|]).
  do 3 (split; [apply Hframe; by apply (bool_decide_unpack _)|]).
  exact Hframe.
Qed.

Lemma update_announcement_frame_witness :
  ∃ w' obj_id l1 d l2 d' m,
    update_announcement "000000000000000000000004" " Bake sale moved "
      "2099-02-01T00:00:00Z" "t1" None false Example.school
    = (Return "Announcement updated successfully", w')
    ∧ ObjectId "000000000000000000000004" = Some obj_id
    ∧ announcements Example.school = l1 ++ d :: l2
    ∧ absent obj_id l1
    ∧ d !! "_id" = Some (VOid obj_id)
    ∧ announcements w' = l1 ++ d' :: l2
    ∧ teachers w' = teachers Example.school
    ∧ d' !! "message" = Some (VStr m) ∧ stripped_of " Bake sale moved " m
    ∧ d' !! "start_date" = Some VNull
    ∧ d' !! "end_date" = Some (VStr "2099-02-01T00:00:00Z")
    ∧ d' !! "active" = Some (VBool false)
    ∧ d' !! "created_by" = d !! "created_by"
    ∧ d' !! "created_at" = d !! "created_at"
    ∧ d' !! "_id" = d !! "_id"
    ∧ ∀ k, k ∉ ["message"; "start_date"; "end_date"; "active"] →
           d' !! k = d !! k.
Proof.
  eexists.
  assert (update_announcement "000000000000000000000004" " Bake sale moved "
            "2099-02-01T00:00:00Z" "t1" None false Example.school
          = (Return "Announcement updated successfully",
             (update_announcement "000000000000000000000004" " Bake sale moved "
                "2099-02-01T00:00:00Z" "t1" None false Example.school).2))
    as Hrun by (vm_compute; reflexivity).
  destruct (update_announcement_frame _ _ _ _ _ _ _ _ _ Hrun)
    as (obj_id & l1 & d & l2 & d' & m & Hrest).
  exists obj_id, l1, d, l2, d', m. split; [exact Hrun|]. exact Hrest.
Defined.

(** C7. A request that leaves [active] out calls [update_announcement]
    with [active = True]: whenever it returns, the announcement it has
    updated is active, whatever its flag was before, [false] included. *)
Theorem update_announcement_default_active `{!Datetime}
    announcement_id message end_date teacher_username start_date w r w' :
  update_announcement_request announcement_id message end_date
    teacher_username start_date None w = (Return r, w') →
  ∃ obj_id l1 d l2 d',
    ObjectId announcement_id = Some obj_id
    ∧ announcements w = l1 ++ d :: l2
    ∧ absent obj_id l1
    ∧ d !! "_id" = Some (VOid obj_id)
    ∧ announcements w' = l1 ++ d' :: l2
    ∧ d' !! "_id" = Some (VOid obj_id)
    ∧ d' !! "active" = Some (VBool true).
Proof.
  unfold update_announcement_request. simpl.
  intros (obj_id & l1 & d & l2 & Hid & Hsplit & Hl1 & Hd & Ha & Ht)
    %update_announcement_effect.
  exists obj_id, l1, d, l2,
    (updated_fields message end_date start_date true ∪ d).
  do 5 (split; [assumption|]). split.
  - rewrite lookup_union_r; [done|]. apply updated_fields_other.
    by apply (bool_decide_unpack _).
  - by apply lookup_union_Some_l.
Qed.

Lemma update_announcement_default_active_witness :
  Example.switched_off !! "active" = Some (VBool false)
  ∧ ∃ w' obj_id l1 d l2 d',
      update_announcement_request "000000000000000000000004" "Bake sale"
        "2099-01-01T00:00:00" "t1" None None Example.school
      = (Return "Announcement updated successfully", w')
      ∧ ObjectId "000000000000000000000004" = Some obj_id
      ∧ announcements Example.school = l1 ++ d :: l2
      ∧ absent obj_id l1
      ∧ d !! "_id" = Some (VOid obj_id)
      ∧ announcements w' = l1 ++ d' :: l2
      ∧ d' !! "_id" = Some (VOid obj_id)
      ∧ d' !! "active" = Some (VBool true).
Proof.
  split; [reflexivity|]. eexists.
  assert (update_announcement_request "000000000000000000000004" "Bake sale"
            "2099-01-01T00:00:00" "t1" None None Example.school
          = (Return "Announcement updated successfully",
             (update_announcement_request "000000000000000000000004" "Bake sale"
                "2099-01-01T00:00:00" "t1" None None Example.school).2))
    as Hrun by (vm_compute; reflexivity).
  destruct (update_announcement_default_active _ _ _ _ _ _ _ _ Hrun)
    as (obj_id & l1 & d & l2 & d' & Hrest).
  exists obj_id, l1, d, l2, d'. split; [exact Hrun|]. exact Hrest.
Defined.

(** ** [PUT /announcements/toggle/{announcement_id}] *)

Lemma active_flag_insert (d : doc) b :
  active_flag (<["active" := VBool b]> d) = b.
Proof. unfold active_flag. by rewrite lookup_insert_eq. Qed.

(** What a call of [toggle_announcement_status] that returns has done. *)
Lemma toggle_announcement_status_effect announcement_id teacher_username
    w r w' :
  toggle_announcement_status announcement_id teacher_username w
  = (Return r, w') →
  ∃ obj_id l1 d l2,
    ObjectId announcement_id = Some obj_id
    ∧ announcements w = l1 ++ d :: l2
    ∧ absent obj_id l1
    ∧ d !! "_id" = Some (VOid obj_id)
    ∧ r.2 = negb (active_flag d)
    ∧ announcements w'
      = l1 ++ <["active" := VBool (negb (active_flag d))]> d :: l2
    ∧ teachers w' = teachers w.
Proof.
  intros Hrun%steady_toggle_announcement_status.
  rewrite toggle_announcement_status_healthy in Hrun by apply heal_healthy.
  destruct (teacher_known _ _); [|done].
  destruct (ObjectId announcement_id) as [obj_id|]; [|done].
  change (announcements (heal w)) with (announcements w) in Hrun.
  destruct (first_with_id obj_id (announcements w))
    as [Hno|(l1 & d & l2 & Hsplit & Hl1 & Hd)].
  - apply absent_no_match, find_None in Hno. by rewrite Hno in Hrun.
  - rewrite Hsplit, find_first in Hrun;
      [|by apply absent_no_match|by apply q_is_true].
    cbn zeta in Hrun.
    rewrite update_first_first in Hrun;
      [|by apply absent_no_match|by apply q_is_true].
    apply pair_equal_spec in Hrun as [[= <-] (Ha & Ht & _)%world_heal_inv].
    exists obj_id, l1, d, l2. rewrite <- insert_union_singleton_l in Ha.
    done.
Qed.

(** The first document with an identifier is determined. *)
Lemma first_with_id_unique id (l1 l1' l2 l2' : list doc) d d' :
  l1 ++ d :: l2 = l1' ++ d' :: l2' →
  absent id l1 → d !! "_id" = Some (VOid id) →
  absent id l1' → d' !! "_id" = Some (VOid id) →
  l1 = l1' ∧ d = d' ∧ l2 = l2'.
Proof.
  intros Heq Hl1 Hd Hl1' Hd'. revert l1' Heq Hl1'.
  induction Hl1 as [|x l1 Hx Hl1 IH]; intros [|x' l1'] Heq Hl1'; simpl in Heq.
  - by injection Heq as -> ->.
  - injection Heq as -> _. by inversion Hl1'.
  - injection Heq as -> _. done.
  - injection Heq as -> Heq. inversion Hl1' as [|? ? _ Htl]; subst.
    destruct (IH l1' Heq Htl) as (-> & -> & ->). done.
Qed.

(** C8. A call of [toggle_announcement_status] that returns has set the
    active flag of the announcement to the negation of the value it read,
    where a missing flag reads as true, so that toggling it gives false,
    and it returns the new value.  A second call that returns brings the
    value the first one read back: it returns it, and stores it.  When
    the flag was a stored boolean, the store after the two calls is the
    store before them. *)
Theorem toggle_announcement_status_twice announcement_id teacher_username
    w r1 w1 r2 w2 :
  toggle_announcement_status announcement_id teacher_username w
  = (Return r1, w1) →
  toggle_announcement_status announcement_id teacher_username w1
  = (Return r2, w2) →
  ∃ obj_id l1 d l2,
    ObjectId announcement_id = Some obj_id
    ∧ announcements w = l1 ++ d :: l2
    ∧ absent obj_id l1
    ∧ d !! "_id" = Some (VOid obj_id)
    ∧ r1.2 = negb (active_flag d)
    ∧ announcements w1
      = l1 ++ <["active" := VBool (negb (active_flag d))]> d :: l2
    ∧ (d !! "active" = None → r1.2 = false ∧ r2.2 = true)
    ∧ r2.2 = active_flag d
    ∧ announcements w2 = l1 ++ <["active" := VBool (active_flag d)]> d :: l2
    ∧ (∀ b, d !! "active" = Some (VBool b) →
         r1.2 = negb b ∧ r2.2 = b ∧ announcements w2 = announcements w)
    ∧ teachers w2 = teachers w.
Proof.
  intros (obj_id & l1 & d & l2 & Hid & Hsplit & Hl1 & Hd & Hr1 & Ha1 & Ht1)
    %toggle_announcement_status_effect
    (obj_id' & l1' & d' & l2' & Hid' & Hsplit' & Hl1' & Hd' & Hr2 & Ha2 & Ht2)
    %toggle_announcement_status_effect.
  rewrite Hid in Hid'. injection Hid' as <-.
  rewrite Ha1 in Hsplit'.
  apply (first_with_id_unique obj_id) in Hsplit' as (<- & <- & <-);
    [|done|by rewrite lookup_insert_ne|done..].
  rewrite active_flag_insert, negb_involutive in Hr2, Ha2.
  rewrite insert_insert_eq in Ha2.
  exists obj_id, l1, d, l2.
  do 6 (split; [assumption|]).
  split.
  { intros Hnone. rewrite Hr1, Hr2. unfold active_flag. by rewrite Hnone. }
  do 2 (split; [assumption|]).
  split; [|congruence].
  intros b Hb.
  assert (active_flag d = b) as Hflag by (unfold active_flag; by rewrite Hb).
  rewrite Hr1, Hr2, Ha2, Hsplit, Hflag.
  by rewrite insert_id.
Qed.

Lemma toggle_announcement_status_twice_witness :
  Example.switched_off !! "active" = Some (VBool false)
  ∧ ∃ w1 w2,
      toggle_announcement_status "000000000000000000000004" "t1" Example.school
      = (Return ("Announcement activated successfully", true), w1)
      ∧ toggle_announcement_status "000000000000000000000004" "t1" w1
        = (Return ("Announcement deactivated successfully", false), w2)
      ∧ announcements w1
        = [ Example.expired; Example.running; Example.legacy;
            <["active" := VBool true]> Example.switched_off ]
      ∧ announcements w2 = announcements Example.school
      ∧ teachers w2 = teachers Example.school.
Proof.
  split; [reflexivity|]. eexists _, _.
  assert (toggle_announcement_status "000000000000000000000004" "t1"
            Example.school
          = (Return ("Announcement activated successfully", true),
             (toggle_announcement_status "000000000000000000000004" "t1"
                Example.school).2)) as Hrun1 by (vm_compute; reflexivity).
  assert (toggle_announcement_status "000000000000000000000004" "t1"
            (toggle_announcement_status "000000000000000000000004" "t1"
               Example.school).2
          = (Return ("Announcement deactivated successfully", false),
             (toggle_announcement_status "000000000000000000000004" "t1"
                (toggle_announcement_status "000000000000000000000004" "t1"
                   Example.school).2).2)) as Hrun2 by (vm_compute; reflexivity).
  destruct (toggle_announcement_status_twice _ _ _ _ _ _ _ Hrun1 Hrun2)
    as (obj_id & l1 & d & l2 & Hid & Hsplit & Hl1 & Hd & _ & Ha1 & _ & _ & _
        & Hbool & Ht).
  injection Hid as <-.
  apply (first_with_id_unique 4
           [Example.expired; Example.running; Example.legacy] l1 [] l2
           Example.switched_off d) in Hsplit as (<- & <- & <-);
    [|apply absent_existsb; reflexivity|reflexivity|exact Hl1|exact Hd].
  destruct (Hbool false eq_refl) as (_ & _ & Ha2).
  split; [exact Hrun1|]. split; [exact Hrun2|].
  split; [exact Ha1|]. split; [exact Ha2|]. exact Ht.
Defined.

(** ** Errors and their order *)

Lemma unique_ids_absent_rest id (l1 l2 : list doc) d :
  unique_ids (l1 ++ d :: l2) → absent id l1 → d !! "_id" = Some (VOid id) →
  absent id (l1 ++ l2).
Proof.
  unfold unique_ids, absent. rewrite fmap_app, fmap_cons.
  intros Hnodup Hl1 Hd. apply Forall_app. split; [done|].
  apply NoDup_app in Hnodup as (_ & _ & Hnodup).
  apply NoDup_cons in Hnodup as [Hnotin _].
  apply Forall_forall. intros x Hx Heq. apply Hnotin.
  rewrite Hd, <- Heq. apply list_elem_of_fmap. by exists x.
Qed.

(** C9, as the code has it.  When the driver does not fail, for a known
    teacher and a well-formed identifier that no announcement has:
    [update_announcement] raises 404 when its dates parse, and
    [delete_announcement] raises 404; the world is the one before the
    call.  When identifiers are unique, deleting an announcement that a
    first call has deleted raises 404. *)
Theorem update_delete_not_found `{!Datetime}
    announcement_id teacher_username obj_id w :
  healthy w →
  teacher_exists teacher_username w →
  ObjectId announcement_id = Some obj_id →
  (absent obj_id (announcements w) →
     (∀ message end_date start_date active,
        dates_parse end_date start_date = true →
        update_announcement announcement_id message end_date teacher_username
          start_date active w
        = (Raise (HTTPException 404 "Announcement not found"), w))
     ∧ delete_announcement announcement_id teacher_username w
       = (Raise (HTTPException 404 "Announcement not found"), w))
  ∧ (unique_ids (announcements w) →
     ∀ r w1,
       delete_announcement announcement_id teacher_username w = (Return r, w1) →
       delete_announcement announcement_id teacher_username w1
       = (Raise (HTTPException 404 "Announcement not found"), w1)).
Proof.
  intros Hw Hyes%teacher_known_exists Hid. split.
  - intros Hno%absent_no_match. split.
    + intros message end_date start_date active Hdates.
      rewrite update_announcement_healthy by done.
      by rewrite Hyes, Hid, Hdates, update_first_None.
    + rewrite delete_announcement_healthy by done.
      by rewrite Hyes, Hid, remove_first_None.
  - intros Huniq r w1. rewrite delete_announcement_healthy by done.
    rewrite Hyes, Hid.
    destruct (first_with_id obj_id (announcements w))
      as [Hno|(l1 & d & l2 & Hsplit & Hl1 & Hd)].
    + apply absent_no_match in Hno. by rewrite remove_first_None.
    + rewrite Hsplit in Huniq |- *.
      rewrite remove_first_first;
        [|by apply absent_no_match|by apply q_is_true].
      intros [= _ <-].
      rewrite delete_announcement_healthy by done.
      change (teacher_known teacher_username _)
        with (teacher_known teacher_username w).
      rewrite Hyes, Hid. cbn [announcements].
      rewrite remove_first_None; [done|].
      apply absent_no_match. by eapply unique_ids_absent_rest.
Qed.

Lemma update_delete_not_found_witness :
  healthy Example.school
  ∧ teacher_exists "t1" Example.school
  ∧ ObjectId "000000000000000000000009" = Some 9%N
  ∧ absent 9 (announcements Example.school)
  ∧ dates_parse "2099-01-01T00:00:00" None = true
  ∧ update_announcement "000000000000000000000009" "Bake sale"
      "2099-01-01T00:00:00" "t1" None true Example.school
    = (Raise (HTTPException 404 "Announcement not found"), Example.school)
  ∧ delete_announcement "000000000000000000000009" "t1" Example.school
    = (Raise (HTTPException 404 "Announcement not found"), Example.school)
  ∧ ObjectId "000000000000000000000004" = Some 4%N
  ∧ unique_ids (announcements Example.school)
  ∧ ∃ w1,
      delete_announcement "000000000000000000000004" "t1" Example.school
      = (Return "Announcement deleted successfully", w1)
      ∧ delete_announcement "000000000000000000000004" "t1" w1
        = (Raise (HTTPException 404 "Announcement not found"), w1).
Proof.
  assert (healthy Example.school) as Hw by reflexivity.
  assert (teacher_exists "t1" Example.school) as Hyes
    by (apply teacher_known_exists; reflexivity).
  assert (absent 9 (announcements Example.school)) as Hno
    by (apply absent_existsb; reflexivity).
  assert (unique_ids (announcements Example.school)) as Huniq
    by (unfold unique_ids; apply (bool_decide_unpack (NoDup _));
        vm_compute; exact I).
  destruct (update_delete_not_found "000000000000000000000009" "t1" 9
              Example.school Hw Hyes eq_refl) as [Habsent _].
  destruct (Habsent Hno) as [Hupdate Hdelete].
  destruct (update_delete_not_found "000000000000000000000004" "t1" 4
              Example.school Hw Hyes eq_refl) as [_ Hagain].
  split; [exact Hw|]. split; [exact Hyes|]. split; [reflexivity|].
  split; [exact Hno|]. split; [reflexivity|].
  split; [exact (Hupdate "Bake sale" "2099-01-01T00:00:00" None true eq_refl)|].
  split; [exact Hdelete|]. split; [reflexivity|]. split; [exact Huniq|].
  eexists. split; [vm_compute; reflexivity|].
  apply (Hagain Huniq "Announcement deleted successfully").
  vm_compute. reflexivity.
Defined.

(** C9 as it is stated fails: for a known teacher and a well-formed
    identifier that no announcement has, [update_announcement] with an
    [end_date] that does not parse raises 400, not 404. *)
Lemma update_announcement_bad_date_before_not_found :
  teacher_known "t1" Example.school = true
  ∧ ObjectId "000000000000000000000009" = Some 9%N
  ∧ existsb (q_is "_id" (VOid 9)) (announcements Example.school) = false
  ∧ update_announcement "000000000000000000000009" "Bake sale" "not-a-date"
      "t1" None true Example.school
    = (Raise (HTTPException 400 "Invalid date format"), Example.school).
Proof. repeat split; vm_compute; reflexivity. Qed.

(** C10. When the driver does not fail, the four endpoints that change
    the store look the teacher up first: for a [teacher_username] the
    directory does not know they raise 401, whatever the identifier, the
    dates and the store are, and the world is the one before the call.
    For a known teacher, [update_announcement], [delete_announcement]
    and [toggle_announcement_status] raise 400 "Invalid announcement ID"
    for an identifier that [ObjectId] rejects, whatever the dates and
    the store are. *)
Theorem teacher_then_identifier `{!Datetime} teacher_username w :
  healthy w →
  (¬ teacher_exists teacher_username w →
     (∀ message end_date start_date,
        create_announcement message end_date teacher_username start_date w
        = (Raise (HTTPException 401 "Authentication required"), w))
     ∧ (∀ announcement_id message end_date start_date active,
          update_announcement announcement_id message end_date
            teacher_username start_date active w
          = (Raise (HTTPException 401 "Authentication required"), w))
     ∧ (∀ announcement_id,
          delete_announcement announcement_id teacher_username w
          = (Raise (HTTPException 401 "Authentication required"), w))
     ∧ (∀ announcement_id,
          toggle_announcement_status announcement_id teacher_username w
          = (Raise (HTTPException 401 "Authentication required"), w)))
  ∧ (teacher_exists teacher_username w →
     ∀ announcement_id, ObjectId announcement_id = None →
       (∀ message end_date start_date active,
          update_announcement announcement_id message end_date
            teacher_username start_date active w
          = (Raise (HTTPException 400 "Invalid announcement ID"), w))
       ∧ delete_announcement announcement_id teacher_username w
         = (Raise (HTTPException 400 "Invalid announcement ID"), w)
       ∧ toggle_announcement_status announcement_id teacher_username w
         = (Raise (HTTPException 400 "Invalid announcement ID"), w)).
Proof.
  intros Hw. split.
  - intros Hno%teacher_unknown. repeat split; intros.
    + rewrite create_announcement_healthy by done. by rewrite Hno.
    + rewrite update_announcement_healthy by done. by rewrite Hno.
    + rewrite delete_announcement_healthy by done. by rewrite Hno.
    + rewrite toggle_announcement_status_healthy by done. by rewrite Hno.
  - intros Hyes%teacher_known_exists announcement_id Hid. repeat split; intros.
    + rewrite update_announcement_healthy by done. by rewrite Hyes, Hid.
    + rewrite delete_announcement_healthy by done. by rewrite Hyes, Hid.
    + rewrite toggle_announcement_status_healthy by done. by rewrite Hyes, Hid.
Qed.

Lemma teacher_then_identifier_witness :
  healthy Example.school
  ∧ ¬ teacher_exists "mallory" Example.school
  ∧ create_announcement "Exam Friday" "not-a-date" "mallory" None Example.school
    = (Raise (HTTPException 401 "Authentication required"), Example.school)
  ∧ update_announcement "no-such-id" "Exam Friday" "not-a-date" "mallory"
      None true Example.school
    = (Raise (HTTPException 401 "Authentication required"), Example.school)
  ∧ delete_announcement "no-such-id" "mallory" Example.school
    = (Raise (HTTPException 401 "Authentication required"), Example.school)
  ∧ toggle_announcement_status "000000000000000000000009" "mallory"
      Example.school
    = (Raise (HTTPException 401 "Authentication required"), Example.school)
  ∧ teacher_exists "t1" Example.school
  ∧ ObjectId "no-such-id" = None
  ∧ update_announcement "no-such-id" "Exam Friday" "not-a-date" "t1" None true
      Example.school
    = (Raise (HTTPException 400 "Invalid announcement ID"), Example.school)
  ∧ delete_announcement "no-such-id" "t1" Example.school
    = (Raise (HTTPException 400 "Invalid announcement ID"), Example.school)
  ∧ toggle_announcement_status "no-such-id" "t1" Example.school
    = (Raise (HTTPException 400 "Invalid announcement ID"), Example.school).
Proof.
  assert (healthy Example.school) as Hw by reflexivity.
  assert (¬ teacher_exists "mallory" Example.school) as Hno
    by (apply teacher_unknown; reflexivity).
  assert (teacher_exists "t1" Example.school) as Hyes
    by (apply teacher_known_exists; reflexivity).
  destruct (teacher_then_identifier "mallory" Example.school Hw)
    as [Hfirst _].
  destruct (Hfirst Hno) as (Hcreate & Hupdate & Hdelete & Htoggle).
  destruct (teacher_then_identifier "t1" Example.school Hw) as [_ Hsecond].
  destruct (Hsecond Hyes "no-such-id" eq_refl)
    as (Hupdate' & Hdelete' & Htoggle').
  split; [exact Hw|]. split; [exact Hno|].
  split; [apply Hcreate|]. split; [apply Hupdate|].
  split; [apply Hdelete|]. split; [apply Htoggle|].
  split; [exact Hyes|]. split; [reflexivity|].
  split; [apply Hupdate'|]. split; [exact Hdelete'|]. exact Htoggle'.
Defined.

(** * Further properties *)

(** ** The endpoints in any world *)

Lemma driver_call_eq w :
  driver_call w
  = (match next_failure w with
     | Some msg => Raise (Exception msg)
     | None => Return ()
     end, after_call w).
Proof.
  unfold driver_call, next_failure, after_call.
  destruct w as [a t l c g [|[msg|] f]]; reflexivity.
Qed.

Lemma documents_after_call c w : documents c (after_call w) = documents c w.
Proof. by destruct c. Qed.

Section any_world.
Context `{!Datetime}.
Variable w : world.

Lemma find_one_eq c q :
  find_one c q w
  = (match next_failure w with
     | Some msg => Raise (Exception msg)
     | None => Return (List.find q (documents c w))
     end, after_call w).
Proof.
  unfold find_one, bind. rewrite driver_call_eq.
  destruct (next_failure w); [done|]. by rewrite documents_after_call.
Qed.

Lemma find_sort_eq c q k direction :
  find_sort c q k direction w
  = (match next_failure w with
     | Some msg => Raise (Exception msg)
     | None =>
         Return (merge_sort (before k direction)
                   (List.filter q (documents c w)))
     end, after_call w).
Proof.
  unfold find_sort, bind. rewrite driver_call_eq.
  destruct (next_failure w); [done|]. by rewrite documents_after_call.
Qed.

Lemma verify_teacher_eq u :
  verify_teacher u w
  = (match next_failure w with
     | Some msg => Raise (Exception msg)
     | None =>
         if teacher_known u w then Return ()
         else Raise (HTTPException 401 "Authentication required")
     end, after_call w).
Proof.
  unfold verify_teacher, bind. rewrite find_one_eq.
  destruct (next_failure w); [done|].
  unfold teacher_known. simpl. by destruct (found _).
Qed.

Lemma update_one_eq c q fields :
  update_one c q fields w
  = match next_failure w with
    | Some msg => (Raise (Exception msg), after_call w)
    | None =>
        match update_first q (λ d, fields ∪ d) (documents c w) with
        | Some l => (Return 1%Z, set_documents c l (after_call w))
        | None => (Return 0%Z, after_call w)
        end
    end.
Proof.
  unfold update_one, bind. rewrite driver_call_eq.
  destruct (next_failure w); [done|]. by rewrite documents_after_call.
Qed.

Lemma delete_one_eq c q :
  delete_one c q w
  = match next_failure w with
    | Some msg => (Raise (Exception msg), after_call w)
    | None =>
        match remove_first q (documents c w) with
        | Some l => (Return 1%Z, set_documents c l (after_call w))
        | None => (Return 0%Z, after_call w)
        end
    end.
Proof.
  unfold delete_one, bind. rewrite driver_call_eq.
  destruct (next_failure w); [done|]. by rewrite documents_after_call.
Qed.

Lemma insert_one_eq c d :
  insert_one c d w
  = match next_failure w with
    | Some msg => (Raise (Exception msg), after_call w)
    | None =>
        let id := default (VOid (generated_id w)) (d !! "_id") in
        if existsb (q_is "_id" id) (documents c w)
        then (Raise (Exception "E11000 duplicate key error"), after_call w)
        else (Return id,
              set_generated_id (N.succ (generated_id w))
                (set_documents c (documents c w ++ [<["_id" := id]> d])
                   (after_call w)))
    end.
Proof.
  unfold insert_one, bind. rewrite driver_call_eq.
  destruct (next_failure w); [done|]. by rewrite documents_after_call.
Qed.
End any_world.

Section endpoints_any_world.
Context `{!Datetime}.
Variable w : world.

Lemma get_all_announcements_eq u :
  get_all_announcements u w
  = match next_failure w with
    | Some msg =>
        internal_failure "Error fetching all announcements: "
          "Failed to fetch announcements" msg (after_call w)
    | None =>
        if teacher_known u w then
          match next_failure (after_call w) with
          | Some msg =>
              internal_failure "Error fetching all announcements: "
                "Failed to fetch announcements" msg (after_call (after_call w))
          | None =>
              (Return (serialize <$>
                 merge_sort (before "created_at" (-1))
                   (List.filter (q_all []) (announcements w))),
               after_call (after_call w))
          end
        else (Raise (HTTPException 401 "Authentication required"),
              after_call w)
    end.
Proof.
  unfold get_all_announcements, try_except, bind.
  rewrite verify_teacher_eq.
  destruct (next_failure w); [done|].
  destruct (teacher_known u w); [|done].
  rewrite find_sort_eq.
  by destruct (next_failure (after_call w)).
Qed.

Lemma create_announcement_eq message end_date u start_date :
  create_announcement message end_date u start_date w
  = match next_failure w with
    | Some msg =>
        internal_failure "Error creating announcement: "
          "Failed to create announcement" msg (after_call w)
    | None =>
        if teacher_known u w then
          if dates_parse end_date start_date then
            match next_failure (after_call w) with
            | Some msg =>
                internal_failure "Error creating announcement: "
                  "Failed to create announcement" msg
                  (after_call (after_call w))
            | None =>
                let d := new_announcement message end_date u start_date
                           (clock w) in
                if existsb (q_is "_id" (VOid (generated_id w)))
                     (announcements w)
                then
                  internal_failure "Error creating announcement: "
                    "Failed to create announcement"
                    "E11000 duplicate key error" (after_call (after_call w))
                else
                  (Return ("Announcement created successfully",
                           <["_id" := VStr (str_oid (generated_id w))]> d),
                   World
                     (announcements w ++ [<["_id" := VOid (generated_id w)]> d])
                     (teachers w)
                     (logged w ++ [(INFO, "Announcement created by " +:+ u)])
                     (clock w) (N.succ (generated_id w))
                     (faults (after_call (after_call w))))
            end
          else (Raise (HTTPException 400 "Invalid date format"), after_call w)
        else (Raise (HTTPException 401 "Authentication required"),
              after_call w)
    end.
Proof.
  unfold create_announcement, try_except, bind.
  rewrite verify_teacher_eq.
  destruct (next_failure w); [done|].
  destruct (teacher_known u w); [|done].
  rewrite validate_dates_eq.
  destruct (dates_parse end_date start_date); [|done].
  unfold datetime_now_isoformat.
  rewrite insert_one_eq.
  destruct (next_failure (after_call w)); [done|].
  fold (new_announcement message end_date u start_date (clock (after_call w))).
  change (new_announcement message end_date u start_date
            (clock (after_call w)) !! "_id") with (@None value).
  cbn [default documents].
  change (announcements (after_call w)) with (announcements w).
  change (generated_id (after_call w)) with (generated_id w).
  by destruct (existsb _ _).
Qed.

Lemma update_announcement_eq announcement_id message end_date u
    start_date active :
  update_announcement announcement_id message end_date u start_date active w
  = match next_failure w with
    | Some msg =>
        internal_failure "Error updating announcement: "
          "Failed to update announcement" msg (after_call w)
    | None =>
        if teacher_known u w then
          match ObjectId announcement_id with
          | Some obj_id =>
              if dates_parse end_date start_date then
                match next_failure (after_call w) with
                | Some msg =>
                    internal_failure "Error updating announcement: "
                      "Failed to update announcement" msg
                      (after_call (after_call w))
                | None =>
                    match update_first (q_is "_id" (VOid obj_id))
                            (λ d, updated_fields message end_date start_date
                                    active ∪ d)
                            (announcements w) with
                    | Some l =>
                        (Return "Announcement updated successfully",
                         World l (teachers w)
                           (logged w
                            ++ [(INFO, "Announcement " +:+ announcement_id
                                       +:+ " updated by " +:+ u)])
                           (clock w) (generated_id w)
                           (faults (after_call (after_call w))))
                    | None =>
                        (Raise (HTTPException 404 "Announcement not found"),
                         after_call (after_call w))
                    end
                end
              else (Raise (HTTPException 400 "Invalid date format"),
                    after_call w)
          | None => (Raise (HTTPException 400 "Invalid announcement ID"),
                     after_call w)
          end
        else (Raise (HTTPException 401 "Authentication required"),
              after_call w)
    end.
Proof.
  unfold update_announcement, try_except, bind.
  rewrite verify_teacher_eq.
  destruct (next_failure w); [done|].
  destruct (teacher_known u w); [|done].
  rewrite validate_object_id_eq.
  destruct (ObjectId announcement_id) as [obj_id|]; [|done].
  rewrite validate_dates_eq.
  destruct (dates_parse end_date start_date); [|done].
  rewrite update_one_eq.
  destruct (next_failure (after_call w)); [done|].
  fold (updated_fields message end_date start_date active).
  cbn [documents].
  change (announcements (after_call w)) with (announcements w).
  by destruct (update_first _ _ _).
Qed.

Lemma delete_announcement_eq announcement_id u :
  delete_announcement announcement_id u w
  = match next_failure w with
    | Some msg =>
        internal_failure "Error deleting announcement: "
          "Failed to delete announcement" msg (after_call w)
    | None =>
        if teacher_known u w then
          match ObjectId announcement_id with
          | Some obj_id =>
              match next_failure (after_call w) with
              | Some msg =>
                  internal_failure "Error deleting announcement: "
                    "Failed to delete announcement" msg
                    (after_call (after_call w))
              | None =>
                  match remove_first (q_is "_id" (VOid obj_id))
                          (announcements w) with
                  | Some l =>
                      (Return "Announcement deleted successfully",
                       World l (teachers w)
                         (logged w
                          ++ [(INFO, "Announcement " +:+ announcement_id
                                     +:+ " deleted by " +:+ u)])
                         (clock w) (generated_id w)
                         (faults (after_call (after_call w))))
                  | None =>
                      (Raise (HTTPException 404 "Announcement not found"),
                       after_call (after_call w))
                  end
              end
          | None => (Raise (HTTPException 400 "Invalid announcement ID"),
                     after_call w)
          end
        else (Raise (HTTPException 401 "Authentication required"),
              after_call w)
    end.
Proof.
  unfold delete_announcement, try_except, bind.
  rewrite verify_teacher_eq.
  destruct (next_failure w); [done|].
  destruct (teacher_known u w); [|done].
  rewrite validate_object_id_eq.
  destruct (ObjectId announcement_id) as [obj_id|]; [|done].
  rewrite delete_one_eq.
  destruct (next_failure (after_call w)); [done|].
  cbn [documents].
  change (announcements (after_call w)) with (announcements w).
  by destruct (remove_first _ _).
Qed.
End endpoints_any_world.

Section toggle_any_world.
Variable w : world.

Lemma found_first_match id a (l : list doc) :
  List.find (q_is "_id" (VOid id)) l = Some a → found (Some a) = true.
Proof.
  intros [_ Hq]%find_some. apply q_is_true in Hq; [|done].
  simpl. apply negb_true_iff, bool_decide_eq_false.
  intros ->. by rewrite lookup_empty in Hq.
Qed.

Lemma toggle_announcement_status_eq announcement_id u :
  toggle_announcement_status announcement_id u w
  = match next_failure w with
    | Some msg =>
        internal_failure "Error toggling announcement status: "
          "Failed to toggle announcement status" msg (after_call w)
    | None =>
        if teacher_known u w then
          match ObjectId announcement_id with
          | Some obj_id =>
              match next_failure (after_call w) with
              | Some msg =>
                  internal_failure "Error toggling announcement status: "
                    "Failed to toggle announcement status" msg
                    (after_call (after_call w))
              | None =>
                  match List.find (q_is "_id" (VOid obj_id))
                          (announcements w) with
                  | Some a =>
                      let new_status := negb (active_flag a) in
                      let status_text :=
                        if new_status then "activated" else "deactivated" in
                      match next_failure (after_call (after_call w)) with
                      | Some msg =>
                          internal_failure
                            "Error toggling announcement status: "
                            "Failed to toggle announcement status" msg
                            (after_call (after_call (after_call w)))
                      | None =>
                          match update_first (q_is "_id" (VOid obj_id))
                                  (λ d, {[ "active" := VBool new_status ]} ∪ d)
                                  (announcements w) with
                          | Some l =>
                              (Return ("Announcement " +:+ status_text
                                       +:+ " successfully", new_status),
                               World l (teachers w)
                                 (logged w
                                  ++ [(INFO, "Announcement "
                                             +:+ announcement_id +:+ " "
                                             +:+ status_text +:+ " by " +:+ u)])
                                 (clock w) (generated_id w)
                                 (faults
                                    (after_call (after_call (after_call w)))))
                          | None =>
                              (Raise (HTTPException 404 "Announcement not found"),
                               after_call (after_call (after_call w)))
                          end
                      end
                  | None =>
                      (Raise (HTTPException 404 "Announcement not found"),
                       after_call (after_call w))
                  end
              end
          | None => (Raise (HTTPException 400 "Invalid announcement ID"),
                     after_call w)
          end
        else (Raise (HTTPException 401 "Authentication required"),
              after_call w)
    end.
Proof.
  unfold toggle_announcement_status, try_except, bind.
  rewrite verify_teacher_eq.
  destruct (next_failure w); [done|].
  destruct (teacher_known u w); [|done].
  rewrite validate_object_id_eq.
  destruct (ObjectId announcement_id) as [obj_id|]; [|done].
  rewrite find_one_eq.
  destruct (next_failure (after_call w)); [done|].
  cbn [documents].
  change (announcements (after_call w)) with (announcements w).
  destruct (List.find _ _) as [a|] eqn:Hf; [|done].
  rewrite (found_first_match _ _ _ Hf).
  cbn [negb default]. fold (active_flag a).
  rewrite update_one_eq.
  destruct (next_failure (after_call (after_call w))); [done|].
  cbn [documents].
  change (announcements (after_call (after_call w))) with (announcements w).
  by destruct (update_first _ _ _).
Qed.
End toggle_any_world.

(** ** Identifiers as strings *)

Lemma hex_value_digit d :
  (d < 16)%N → Oid.hex_value (Oid.hex_digit d) = Some d.
Proof.
  intros Hd. destruct d as [|p]; [reflexivity|].
  do 4 (destruct p as [p|p|]; try reflexivity; try (exfalso; lia)).
Qed.

Lemma length_to_hex width n acc :
  String.length (Oid.to_hex width n acc) = (width + String.length acc)%nat.
Proof.
  revert n acc. induction width as [|width IH]; intros n acc; simpl; [done|].
  rewrite IH. simpl. lia.
Qed.

Lemma isspace_digit d : (d < 16)%N → Oid.isspace (Oid.hex_digit d) = false.
Proof.
  intros Hd. destruct d as [|p]; [reflexivity|].
  do 4 (destruct p as [p|p|]; try reflexivity; try (exfalso; lia)).
Qed.

Lemma fromhex_digits top bot rest :
  (top < 16)%N → (bot < 16)%N →
  Oid.fromhex (String (Oid.hex_digit top) (String (Oid.hex_digit bot) rest))
  = cons (16 * top + bot)%N <$> Oid.fromhex rest.
Proof.
  intros Htop Hbot. cbn [Oid.fromhex].
  by rewrite isspace_digit, !hex_value_digit.
Qed.

Lemma to_hex_byte k n acc :
  Oid.to_hex (2 * S k) n acc
  = Oid.to_hex (2 * k) (n / 256)%N
      (String (Oid.hex_digit (n / 16 mod 16)%N)
         (String (Oid.hex_digit (n mod 16)%N) acc)).
Proof.
  replace (2 * S k)%nat with (S (S (2 * k))) by lia.
  cbn [Oid.to_hex]. by rewrite N.Div0.div_div.
Qed.

Lemma fromhex_to_hex k n rest :
  Oid.fromhex (Oid.to_hex (2 * k) n rest)
  = (λ bytes, Oid.to_bytes k n ++ bytes) <$> Oid.fromhex rest.
Proof.
  revert n rest. induction k as [|k IH]; intros n rest.
  - change (Oid.fromhex rest = (λ bytes, [] ++ bytes) <$> Oid.fromhex rest).
    destruct (Oid.fromhex rest); reflexivity.
  - rewrite to_hex_byte, IH, fromhex_digits by (apply N.mod_lt; lia).
    cbn [Oid.to_bytes].
    replace (16 * (n / 16 mod 16) + n mod 16)%N with (n mod 256)%N
      by (change 256%N with (16 * 16)%N;
          rewrite (N.Div0.mod_mul_r n 16 16); lia).
    destruct (Oid.fromhex rest) as [bytes|]; [|done].
    cbn. by rewrite <- app_assoc.
Qed.

Lemma length_to_bytes k n : length (Oid.to_bytes k n) = k.
Proof.
  revert n. induction k as [|k IH]; intros n; [done|].
  cbn [Oid.to_bytes]. rewrite length_app, IH. simpl. lia.
Qed.

Lemma value_to_bytes k n :
  Oid.value (Oid.to_bytes k n) = (n mod 256 ^ N.of_nat k)%N.
Proof.
  revert n. induction k as [|k IH]; intros n.
  - cbn. by rewrite N.mod_1_r.
  - cbn [Oid.to_bytes]. unfold Oid.value in *.
    rewrite fold_left_app. cbn [fold_left]. rewrite IH.
    rewrite Nat2N.inj_succ, N.pow_succ_r'.
    rewrite (N.Div0.mod_mul_r n 256 (256 ^ N.of_nat k)). lia.
Qed.

Lemma pack_twelve bytes :
  (Oid.pack bytes < oid_bound)%N → length bytes = 12%nat.
Proof.
  unfold Oid.pack. destruct (length bytes =? 12)%nat eqn:Hlen.
  - intros _. by apply Nat.eqb_eq.
  - change Oid.bound with oid_bound. nia.
Qed.

Lemma ObjectId_str_oid o :
  (o < oid_bound)%N → ObjectId (str_oid o) = Some o.
Proof.
  intros Ho. unfold ObjectId, str_oid, Oid.size.
  change Oid.bound with oid_bound.
  apply N.ltb_lt in Ho as Hlt. rewrite Hlt.
  rewrite length_to_hex. cbn [String.length Nat.add Nat.mul Nat.eqb].
  change 24%nat with (2 * 12)%nat. rewrite fromhex_to_hex.
  cbn [Oid.fromhex fmap option_fmap option_map]. f_equal.
  unfold Oid.pack. rewrite length_app, length_to_bytes.
  cbn [length Nat.add Nat.eqb]. unfold Oid.value.
  rewrite fold_left_app. cbn [fold_left].
  fold (Oid.value (Oid.to_bytes 12 (o mod oid_bound))).
  rewrite value_to_bytes. change (256 ^ N.of_nat 12)%N with oid_bound.
  by rewrite N.Div0.mod_mod, N.mod_small.
Qed.

(** ** Failures *)

Ltac run_cases H :=
  repeat match type of H with
         | context [match ?x with _ => _ end] => destruct x eqn:?
         end.

Ltac open_run H :=
  first [ rewrite get_all_announcements_eq in H
        | rewrite create_announcement_eq in H
        | rewrite update_announcement_eq in H
        | rewrite delete_announcement_eq in H
        | rewrite toggle_announcement_status_eq in H ];
  unfold internal_failure in H; cbn zeta in H; run_cases H;
  try discriminate.

Ltac status_ok :=
  eexists _, _; split; [reflexivity|repeat constructor].

(** The status 500 is none of the statuses of a refused request, so
    nothing is to be shown of the collections after it. *)
Ltac not_refused :=
  let Hin := fresh "Hin" in
  intros (? & ? & [= <- <-] & Hin); exfalso;
  repeat (apply elem_of_cons in Hin as [Hin|Hin]; [discriminate Hin|]);
  by apply elem_of_nil in Hin.

(** X1. What one of the five endpoints that check the teacher raises,
    in any world, is an [HTTPException]: 401 or 500 from
    [get_all_announcements], 400, 401 or 500 from [create_announcement],
    and 400, 401, 404 or 500 from the three others.  When the request
    is refused, that is when the status is 400, 401 or 404, both
    collections are what they were before the call. *)
Theorem refused_requests_change_nothing `{!Datetime} w e w' :
  (∀ u,
     get_all_announcements u w = (Raise e, w') →
     router_status [401; 500]%Z e
     ∧ (router_status [401]%Z e → same_store w w'))
  ∧ (∀ message end_date u start_date,
       create_announcement message end_date u start_date w = (Raise e, w') →
       router_status [400; 401; 500]%Z e
       ∧ (router_status [400; 401]%Z e → same_store w w'))
  ∧ (∀ announcement_id message end_date u start_date active,
       update_announcement announcement_id message end_date u start_date
         active w = (Raise e, w') →
       router_status [400; 401; 404; 500]%Z e
       ∧ (router_status [400; 401; 404]%Z e → same_store w w'))
  ∧ (∀ announcement_id u,
       delete_announcement announcement_id u w = (Raise e, w') →
       router_status [400; 401; 404; 500]%Z e
       ∧ (router_status [400; 401; 404]%Z e → same_store w w'))
  ∧ (∀ announcement_id u,
       toggle_announcement_status announcement_id u w = (Raise e, w') →
       router_status [400; 401; 404; 500]%Z e
       ∧ (router_status [400; 401; 404]%Z e → same_store w w')).
Proof.
  split; [|split; [|split; [|split]]]; intros * Hrun; open_run Hrun;
    injection Hrun as <- <-;
    (split; [status_ok|first [not_refused|intros _; done]]).
Qed.

Lemma refused_requests_change_nothing_witness :
  (get_all_announcements "mallory" Example.school
   = (Raise (HTTPException 401 "Authentication required"), Example.school)
   ∧ router_status [401; 500]%Z
       (HTTPException 401 "Authentication required")
   ∧ same_store Example.school Example.school)
  ∧ (create_announcement "Exam Friday" "not-a-date" "t1" None Example.school
     = (Raise (HTTPException 400 "Invalid date format"), Example.school)
     ∧ router_status [400; 401; 500]%Z
         (HTTPException 400 "Invalid date format")
     ∧ same_store Example.school Example.school)
  ∧ (update_announcement "000000000000000000000009" "Bake sale"
       "2099-01-01T00:00:00" "t1" None true Example.school
     = (Raise (HTTPException 404 "Announcement not found"), Example.school)
     ∧ router_status [400; 401; 404; 500]%Z
         (HTTPException 404 "Announcement not found")
     ∧ same_store Example.school Example.school)
  ∧ (∃ w',
       delete_announcement "000000000000000000000004" "t1" Example.school_down
       = (Raise (HTTPException 500 "Failed to delete announcement"), w')
       ∧ router_status [400; 401; 404; 500]%Z
           (HTTPException 500 "Failed to delete announcement"))
  ∧ (toggle_announcement_status "no-such-id" "t1" Example.school
     = (Raise (HTTPException 400 "Invalid announcement ID"), Example.school)
     ∧ router_status [400; 401; 404; 500]%Z
         (HTTPException 400 "Invalid announcement ID")
     ∧ same_store Example.school Example.school).
Proof.
  split; [|split; [|split; [|split]]].
  - assert (get_all_announcements "mallory" Example.school
            = (Raise (HTTPException 401 "Authentication required"),
               Example.school)) as Hrun by (vm_compute; reflexivity).
    split; [exact Hrun|].
    destruct (proj1 (refused_requests_change_nothing _ _ _) _ Hrun)
      as [Hstatus Hstore].
    split; [exact Hstatus|]. apply Hstore. status_ok.
  - assert (create_announcement "Exam Friday" "not-a-date" "t1" None
              Example.school
            = (Raise (HTTPException 400 "Invalid date format"),
               Example.school)) as Hrun by (vm_compute; reflexivity).
    split; [exact Hrun|].
    destruct (proj1 (proj2 (refused_requests_change_nothing _ _ _))
                _ _ _ _ Hrun) as [Hstatus Hstore].
    split; [exact Hstatus|]. apply Hstore. status_ok.
  - assert (update_announcement "000000000000000000000009" "Bake sale"
              "2099-01-01T00:00:00" "t1" None true Example.school
            = (Raise (HTTPException 404 "Announcement not found"),
               Example.school)) as Hrun by (vm_compute; reflexivity).
    split; [exact Hrun|].
    destruct (proj1 (proj2 (proj2 (refused_requests_change_nothing _ _ _)))
                _ _ _ _ _ _ Hrun) as [Hstatus Hstore].
    split; [exact Hstatus|]. apply Hstore. status_ok.
  - eexists.
    assert (delete_announcement "000000000000000000000004" "t1"
              Example.school_down
            = (Raise (HTTPException 500 "Failed to delete announcement"),
               (delete_announcement "000000000000000000000004" "t1"
                  Example.school_down).2)) as Hrun
      by (vm_compute; reflexivity).
    split; [exact Hrun|].
    exact (proj1 (proj1 (proj2 (proj2 (proj2
             (refused_requests_change_nothing _ _ _)))) _ _ Hrun)).
  - assert (toggle_announcement_status "no-such-id" "t1" Example.school
            = (Raise (HTTPException 400 "Invalid announcement ID"),
               Example.school)) as Hrun by (vm_compute; reflexivity).
    split; [exact Hrun|].
    destruct (proj2 (proj2 (proj2 (proj2
                (refused_requests_change_nothing _ _ _)))) _ _ Hrun)
      as [Hstatus Hstore].
    split; [exact Hstatus|]. apply Hstore. status_ok.
Defined.

Ltac log_ok :=
  simpl; first [ reflexivity | eexists; reflexivity ].

(** X2. What the five endpoints that check the teacher write to the log,
    in any world: a request that raises 400, 401 or 404 writes nothing;
    one that raises 500 writes exactly one [ERROR] entry; a mutation
    that returns writes exactly one [INFO] entry, and
    [get_all_announcements] that returns writes nothing. *)
Theorem logging_discipline `{!Datetime} w :
  (∀ u,
     log_after false w (get_all_announcements u w).1
       (get_all_announcements u w).2)
  ∧ (∀ message end_date u start_date,
       log_after true w
         (create_announcement message end_date u start_date w).1
         (create_announcement message end_date u start_date w).2)
  ∧ (∀ announcement_id message end_date u start_date active,
       log_after true w
         (update_announcement announcement_id message end_date u start_date
            active w).1
         (update_announcement announcement_id message end_date u start_date
            active w).2)
  ∧ (∀ announcement_id u,
       log_after true w (delete_announcement announcement_id u w).1
         (delete_announcement announcement_id u w).2)
  ∧ (∀ announcement_id u,
       log_after true w (toggle_announcement_status announcement_id u w).1
         (toggle_announcement_status announcement_id u w).2).
Proof.
  split; [|split; [|split; [|split]]]; intros *.
  - destruct (get_all_announcements _ _) as [o w'] eqn:Hrun.
    open_run Hrun; injection Hrun as <- <-; log_ok.
  - destruct (create_announcement _ _ _ _ _) as [o w'] eqn:Hrun.
    open_run Hrun; injection Hrun as <- <-; log_ok.
  - destruct (update_announcement _ _ _ _ _ _ _) as [o w'] eqn:Hrun.
    open_run Hrun; injection Hrun as <- <-; log_ok.
  - destruct (delete_announcement _ _ _) as [o w'] eqn:Hrun.
    open_run Hrun; injection Hrun as <- <-; log_ok.
  - destruct (toggle_announcement_status _ _ _) as [o w'] eqn:Hrun.
    open_run Hrun; injection Hrun as <- <-; log_ok.
Qed.

(** X3. When the database is down, so that the first call of the driver
    raises, each of the five endpoints that check the teacher raises 500
    with its own fixed detail; the message of the driver goes to the log
    and not to the caller, and both collections are unchanged. *)
Theorem database_down_is_internal_error `{!Datetime} w msg f :
  faults w = Some msg :: f →
  (∀ u,
     get_all_announcements u w
     = (Raise (HTTPException 500 "Failed to fetch announcements"),
        set_logged
          (logged w ++ [(ERROR, "Error fetching all announcements: " +:+ msg)])
          (set_faults f w)))
  ∧ (∀ message end_date u start_date,
       create_announcement message end_date u start_date w
       = (Raise (HTTPException 500 "Failed to create announcement"),
          set_logged
            (logged w ++ [(ERROR, "Error creating announcement: " +:+ msg)])
            (set_faults f w)))
  ∧ (∀ announcement_id message end_date u start_date active,
       update_announcement announcement_id message end_date u start_date
         active w
       = (Raise (HTTPException 500 "Failed to update announcement"),
          set_logged
            (logged w ++ [(ERROR, "Error updating announcement: " +:+ msg)])
            (set_faults f w)))
  ∧ (∀ announcement_id u,
       delete_announcement announcement_id u w
       = (Raise (HTTPException 500 "Failed to delete announcement"),
          set_logged
            (logged w ++ [(ERROR, "Error deleting announcement: " +:+ msg)])
            (set_faults f w)))
  ∧ (∀ announcement_id u,
       toggle_announcement_status announcement_id u w
       = (Raise (HTTPException 500 "Failed to toggle announcement status"),
          set_logged
            (logged w
             ++ [(ERROR, "Error toggling announcement status: " +:+ msg)])
            (set_faults f w))).
Proof.
  intros Hf.
  assert (next_failure w = Some msg) as Hnext
    by (unfold next_failure; by rewrite Hf).
  assert (after_call w = set_faults f w) as Hafter
    by (unfold after_call; by rewrite Hf).
  split; [|split; [|split; [|split]]]; intros *.
  - by rewrite get_all_announcements_eq, Hnext, <- Hafter.
  - by rewrite create_announcement_eq, Hnext, <- Hafter.
  - by rewrite update_announcement_eq, Hnext, <- Hafter.
  - by rewrite delete_announcement_eq, Hnext, <- Hafter.
  - by rewrite toggle_announcement_status_eq, Hnext, <- Hafter.
Qed.

Lemma database_down_is_internal_error_witness :
  faults Example.school_down = [Some "connection refused"]
  ∧ get_all_announcements "t1" Example.school_down
    = (Raise (HTTPException 500 "Failed to fetch announcements"),
       set_logged
         [(ERROR, "Error fetching all announcements: connection refused")]
         Example.school)
  ∧ create_announcement "Exam Friday" "2099-01-01T00:00:00" "t1" None
      Example.school_down
    = (Raise (HTTPException 500 "Failed to create announcement"),
       set_logged [(ERROR, "Error creating announcement: connection refused")]
         Example.school)
  ∧ toggle_announcement_status "000000000000000000000004" "t1"
      Example.school_down
    = (Raise (HTTPException 500 "Failed to toggle announcement status"),
       set_logged
         [(ERROR, "Error toggling announcement status: connection refused")]
         Example.school).
Proof.
  split; [reflexivity|].
  destruct (database_down_is_internal_error Example.school_down
              "connection refused" [] eq_refl)
    as (Hall & Hcreate & _ & _ & Htoggle).
  split; [exact (Hall "t1")|].
  split; [exact (Hcreate "Exam Friday" "2099-01-01T00:00:00" "t1" None)|].
  exact (Htoggle "000000000000000000000004" "t1").
Defined.

(** ** Reading *)

(** X4. The list [get_active_announcements] returns is sorted by
    [created_at], newest first, in every world: every announcement comes
    before all those that are not newer. *)
Theorem get_active_announcements_newest_first w :
  ∃ r w',
    get_active_announcements w = (Return r, w')
    ∧ StronglySorted (before "created_at" (-1)) r.
Proof.
  assert (∀ l : list doc,
            StronglySorted (before "created_at" (-1))
              (serialize <$> merge_sort (before "created_at" (-1)) l))
    as Hsorted.
  { intros l.
    eapply StronglySorted_fmap; [|apply StronglySorted_merge_sort; apply _].
    intros a b. by apply serialize_before. }
  unfold get_active_announcements, try_except, bind, datetime_now_isoformat,
    find_sort, bind, driver_call.
  destruct (faults w) as [|[msg|] f].
  - eexists _, _. split; [reflexivity|]. apply Hsorted.
  - eexists _, _. split; [reflexivity|]. constructor.
  - eexists _, _. split; [reflexivity|]. apply Hsorted.
Qed.

Lemma get_active_announcements_never_raises_store w :
  same_store w (get_active_announcements w).2.
Proof.
  unfold get_active_announcements, try_except, bind, datetime_now_isoformat,
    find_sort, bind, driver_call.
  by destruct (faults w) as [|[msg|] f].
Qed.

Lemma get_all_announcements_store u w :
  same_store w (get_all_announcements u w).2.
Proof.
  destruct (get_all_announcements u w) as [o w'] eqn:Hrun.
  open_run Hrun; by injection Hrun as <- <-.
Qed.

(** X5. [get_all_announcements] only reads: whatever it returns or
    raises, in any world, both collections are what they were. *)
Theorem get_all_announcements_read_only u w :
  same_store w (get_all_announcements u w).2.
Proof.
  destruct (get_all_announcements u w) as [o w'] eqn:Hrun.
  open_run Hrun; injection Hrun as <- <-; split; reflexivity.
Qed.

Lemma filter_sublist_of (q : query) (l : list doc) :
  List.filter q l `sublist_of` l.
Proof.
  rewrite (filter_query q (λ d, q d = true)) by done.
  apply sublist_filter.
Qed.

(** X6. What is shown is part of what is listed: when the driver does
    not fail, every announcement that [get_active_announcements]
    returns is returned by [get_all_announcements] to a known teacher,
    as the same document and at least as many times. *)
Theorem active_announcements_among_all u w :
  healthy w → teacher_exists u w →
  ∃ shown listed,
    get_active_announcements w = (Return shown, w)
    ∧ get_all_announcements u w = (Return listed, w)
    ∧ shown ⊆+ listed.
Proof.
  intros Hw Hyes%teacher_known_exists.
  rewrite get_all_announcements_healthy, Hyes by done.
  unfold get_active_announcements, try_except, bind, datetime_now_isoformat.
  rewrite find_sort_healthy by done. cbn [documents].
  eexists _, _. split; [reflexivity|]. split; [reflexivity|].
  apply fmap_submseteq. rewrite !merge_sort_Permutation, filter_everything.
  apply sublist_submseteq, filter_sublist_of.
Qed.

Lemma active_announcements_among_all_witness :
  healthy Example.school
  ∧ teacher_exists "t1" Example.school
  ∧ ∃ shown listed,
      get_active_announcements Example.school = (Return shown, Example.school)
      ∧ get_all_announcements "t1" Example.school
        = (Return listed, Example.school)
      ∧ shown ⊆+ listed.
Proof.
  assert (healthy Example.school) as Hw by reflexivity.
  assert (teacher_exists "t1" Example.school) as Hyes
    by (apply teacher_known_exists; reflexivity).
  split; [exact Hw|]. split; [exact Hyes|].
  exact (active_announcements_among_all "t1" Example.school Hw Hyes).
Defined.

(** ** Writing *)

(** X7. Whenever [delete_announcement] returns, in any world, the first
    announcement with the identifier is gone; every other announcement
    is kept, in the same order; the teacher directory is unchanged. *)
Theorem delete_announcement_removes announcement_id u w r w' :
  delete_announcement announcement_id u w = (Return r, w') →
  ∃ obj_id l1 d l2,
    ObjectId announcement_id = Some obj_id
    ∧ announcements w = l1 ++ d :: l2
    ∧ absent obj_id l1
    ∧ d !! "_id" = Some (VOid obj_id)
    ∧ announcements w' = l1 ++ l2
    ∧ teachers w' = teachers w.
Proof.
  intros Hrun. rewrite delete_announcement_eq in Hrun.
  unfold internal_failure in Hrun.
  destruct (next_failure w); [done|].
  destruct (teacher_known u w); [|done].
  destruct (ObjectId announcement_id) as [obj_id|]; [|done].
  destruct (next_failure (after_call w)); [done|].
  destruct (first_with_id obj_id (announcements w))
    as [Hno|(l1 & d & l2 & Hsplit & Hl1 & Hd)].
  - apply absent_no_match in Hno. by rewrite remove_first_None in Hrun.
  - rewrite Hsplit, remove_first_first in Hrun;
      [|by apply absent_no_match|by apply q_is_true].
    injection Hrun as _ <-. by exists obj_id, l1, d, l2.
Qed.

Lemma delete_announcement_removes_witness :
  ∃ w',
    delete_announcement "000000000000000000000002" "t1" Example.school
    = (Return "Announcement deleted successfully", w')
    ∧ announcements w'
      = [Example.expired; Example.legacy; Example.switched_off]
    ∧ teachers w' = teachers Example.school.
Proof.
  eexists.
  assert (delete_announcement "000000000000000000000002" "t1" Example.school
          = (Return "Announcement deleted successfully",
             (delete_announcement "000000000000000000000002" "t1"
                Example.school).2)) as Hrun by (vm_compute; reflexivity).
  destruct (delete_announcement_removes _ _ _ _ _ Hrun)
    as (obj_id & l1 & d & l2 & Hid & Hsplit & Hl1 & Hd & Ha & Ht).
  injection Hid as <-.
  apply (first_with_id_unique 2 [Example.expired] l1
           [Example.legacy; Example.switched_off] l2 Example.running d)
    in Hsplit as (<- & <- & <-);
    [|apply absent_existsb; reflexivity|reflexivity|exact Hl1|exact Hd].
  split; [exact Hrun|]. split; [exact Ha|exact Ht].
Defined.

Lemma update_first_ids (q : query) (f : doc → doc) (l l' : list doc) :
  (∀ d, f d !! "_id" = d !! "_id") →
  update_first q f l = Some l' →
  (λ d : doc, d !! "_id") <$> l' = (λ d : doc, d !! "_id") <$> l.
Proof.
  intros Hf. revert l'.
  induction l as [|x l IH]; intros l'; cbn [update_first]; [done|].
  destruct (q x).
  - intros [= <-]. rewrite !fmap_cons. by rewrite Hf.
  - destruct (update_first q f l) as [k|]; [|done].
    intros [= <-]. rewrite !fmap_cons. by rewrite (IH k).
Qed.

Lemma remove_first_sublist (q : query) (l l' : list doc) :
  remove_first q l = Some l' → l' `sublist_of` l.
Proof.
  revert l'. induction l as [|x l IH]; intros l'; simpl; [done|].
  destruct (q x).
  - intros [= <-]. by apply sublist_cons.
  - destruct (remove_first q l) as [k|]; [|done].
    intros [= <-]. apply sublist_skip. by apply IH.
Qed.

Lemma unique_ids_updated (q : query) (f : doc → doc) (l l' : list doc) :
  (∀ d, f d !! "_id" = d !! "_id") →
  update_first q f l = Some l' → unique_ids l → unique_ids l'.
Proof.
  intros Hf Hup. unfold unique_ids. by rewrite (update_first_ids q f l l').
Qed.

Lemma unique_ids_removed (q : query) (l l' : list doc) :
  remove_first q l = Some l' → unique_ids l → unique_ids l'.
Proof.
  intros Hrm%remove_first_sublist. unfold unique_ids.
  intros Hl. eapply sublist_NoDup; [exact Hl|].
  by apply (fmap_sublist (λ d : doc, d !! "_id")).
Qed.

Lemma unique_ids_inserted id (d : doc) (l : list doc) :
  absent id l → unique_ids l → unique_ids (l ++ [<["_id" := VOid id]> d]).
Proof.
  unfold unique_ids, absent. intros Hfresh Hl.
  rewrite fmap_app. apply NoDup_app. split; [done|]. split.
  - intros x Hx [->|[]%elem_of_nil]%elem_of_cons.
    rewrite lookup_insert_eq in Hx.
    apply list_elem_of_fmap in Hx as (y & Hy & Hin).
    rewrite Forall_forall in Hfresh. by apply (Hfresh y).
  - simpl. apply NoDup_singleton.
Qed.

Lemma updated_fields_keep_id message end_date start_date active (d : doc) :
  (updated_fields message end_date start_date active ∪ d) !! "_id"
  = d !! "_id".
Proof.
  apply lookup_union_r, updated_fields_other.
  by apply (bool_decide_unpack _).
Qed.

Lemma active_field_keeps_id b (d : doc) :
  (({[ "active" := VBool b ]} : doc) ∪ d) !! "_id" = d !! "_id".
Proof. by apply lookup_union_r. Qed.

(** X8. No two announcements get the same identifier: when the
    identifiers of the store are unique before a request, they are
    unique after it, for each of the six endpoints, in any world and
    whatever the request returns or raises. *)
Theorem unique_ids_kept `{!Datetime} w :
  unique_ids (announcements w) →
  unique_ids (announcements (get_active_announcements w).2)
  ∧ (∀ u, unique_ids (announcements (get_all_announcements u w).2))
  ∧ (∀ message end_date u start_date,
       unique_ids
         (announcements
            (create_announcement message end_date u start_date w).2))
  ∧ (∀ announcement_id message end_date u start_date active,
       unique_ids
         (announcements
            (update_announcement announcement_id message end_date u
               start_date active w).2))
  ∧ (∀ announcement_id u,
       unique_ids (announcements (delete_announcement announcement_id u w).2))
  ∧ (∀ announcement_id u,
       unique_ids
         (announcements (toggle_announcement_status announcement_id u w).2)).
Proof.
  intros Huniq.
  split; [|split; [|split; [|split; [|split]]]]; intros *.
  - destruct (get_active_announcements_never_raises_store w) as [-> _].
    exact Huniq.
  - destruct (get_all_announcements_store u w) as [-> _]. exact Huniq.
  - destruct (create_announcement _ _ _ _ _) as [o w'] eqn:Hrun.
    open_run Hrun; injection Hrun as <- <-;
      first [ exact Huniq
            | apply unique_ids_inserted; [by apply absent_existsb|exact Huniq] ].
  - destruct (update_announcement _ _ _ _ _ _ _) as [o w'] eqn:Hrun.
    open_run Hrun; injection Hrun as <- <-;
      first [ exact Huniq
            | eapply unique_ids_updated;
              [intros d; apply updated_fields_keep_id|eassumption|exact Huniq] ].
  - destruct (delete_announcement _ _ _) as [o w'] eqn:Hrun.
    open_run Hrun; injection Hrun as <- <-;
      first [ exact Huniq
            | eapply unique_ids_removed; [eassumption|exact Huniq] ].
  - destruct (toggle_announcement_status _ _ _) as [o w'] eqn:Hrun.
    open_run Hrun; injection Hrun as <- <-;
      first [ exact Huniq
            | eapply unique_ids_updated;
              [intros d; apply active_field_keeps_id|eassumption|exact Huniq] ].
Qed.

Lemma unique_ids_kept_witness :
  unique_ids (announcements Example.school)
  ∧ unique_ids
      (announcements
         (create_announcement "Exam Friday" "2099-01-01T00:00:00" "t1" None
            Example.school).2)
  ∧ unique_ids
      (announcements
         (update_announcement "000000000000000000000004" "Bake sale"
            "2099-01-01T00:00:00" "t1" None true Example.school).2)
  ∧ unique_ids
      (announcements
         (delete_announcement "000000000000000000000002" "t1"
            Example.school).2).
Proof.
  assert (unique_ids (announcements Example.school)) as Huniq
    by (unfold unique_ids; apply (bool_decide_unpack (NoDup _));
        vm_compute; exact I).
  destruct (unique_ids_kept Example.school Huniq)
    as (_ & _ & Hcreate & Hupdate & Hdelete & _).
  split; [exact Huniq|]. split; [apply Hcreate|].
  split; [apply Hupdate|apply Hdelete].
Defined.

(** ** Requests one after the other *)

Lemma serialize_stored (d : doc) id :
  serialize (<["_id" := VOid id]> d) = <["_id" := VStr (str_oid id)]> d.
Proof.
  unfold serialize. rewrite lookup_insert_eq. simpl.
  by rewrite insert_insert_eq.
Qed.

Lemma currently_active_new message end_date u start_date now id :
  currently_active now
    (<["_id" := VOid id]> (new_announcement message end_date u start_date now))
  ↔ window_holds start_date end_date now.
Proof.
  unfold currently_active, window_holds.
  change ((<["_id" := VOid id]>
             (new_announcement message end_date u start_date now)) !! "active")
    with (Some (VBool true)).
  change ((<["_id" := VOid id]>
             (new_announcement message end_date u start_date now))
            !! "start_date") with (Some (of_optional start_date)).
  change ((<["_id" := VOid id]>
             (new_announcement message end_date u start_date now))
            !! "end_date") with (Some (VStr end_date)).
  split.
  - intros (_ & Hstart & e & [= <-] & He). split; [|done].
    destruct start_date as [s|]; [right|by left].
    destruct Hstart as [[=]|[[=]|(s' & [= <-] & Hs)]]. by exists s.
  - intros [Hstart He]. split; [done|]. split; [|by exists end_date].
    destruct Hstart as [->|(s & -> & Hs)]; [by right; left|].
    right; right. by exists s.
Qed.

(** X9. The identifier that [create_announcement] returns is the handle
    of the announcement it has stored: when the driver does not fail
    and the generated identifier fits in 12 bytes, the returned record
    has a string ["_id"], and [delete_announcement] called with that
    string by the same teacher returns and brings the collection back
    to what it was before the creation. *)
Theorem create_then_delete `{!Datetime}
    message end_date u start_date w r w1 :
  healthy w →
  (generated_id w < oid_bound)%N →
  create_announcement message end_date u start_date w = (Return r, w1) →
  ∃ id w2,
    r.2 !! "_id" = Some (VStr id)
    ∧ ObjectId id = Some (generated_id w)
    ∧ delete_announcement id u w1
      = (Return "Announcement deleted successfully", w2)
    ∧ announcements w2 = announcements w
    ∧ teachers w2 = teachers w.
Proof.
  intros Hw Hbound Hrun.
  rewrite create_announcement_healthy in Hrun by done.
  destruct (teacher_known u w) eqn:Hyes; [|done].
  destruct (dates_parse end_date start_date); [|done].
  cbn zeta in Hrun.
  destruct (existsb _ _) eqn:Hfresh; [done|].
  injection Hrun as <- <-.
  exists (str_oid (generated_id w)). eexists.
  split; [apply lookup_insert_eq|].
  split; [by apply ObjectId_str_oid|].
  rewrite delete_announcement_healthy by (unfold healthy; exact Hw).
  change (teacher_known u _) with (teacher_known u w).
  rewrite Hyes, ObjectId_str_oid by done. cbn [announcements].
  rewrite remove_first_first;
    [|by apply absent_no_match, absent_existsb
     |apply q_is_true; [done|apply lookup_insert_eq]].
  split; [reflexivity|]. split; [apply app_nil_r|reflexivity].
Qed.

Lemma create_then_delete_witness :
  healthy Example.school
  ∧ (generated_id Example.school < oid_bound)%N
  ∧ ∃ r w1 id w2,
      create_announcement "Exam Friday" "2099-01-01T00:00:00" "t1" None
        Example.school = (Return r, w1)
      ∧ r.2 !! "_id" = Some (VStr id)
      ∧ ObjectId id = Some (generated_id Example.school)
      ∧ delete_announcement id "t1" w1
        = (Return "Announcement deleted successfully", w2)
      ∧ announcements w2 = announcements Example.school
      ∧ teachers w2 = teachers Example.school.
Proof.
  assert (healthy Example.school) as Hw by reflexivity.
  assert (generated_id Example.school < oid_bound)%N as Hbound
    by reflexivity.
  split; [exact Hw|]. split; [exact Hbound|].
  eexists _, _.
  assert (create_announcement "Exam Friday" "2099-01-01T00:00:00" "t1" None
            Example.school
          = ((create_announcement "Exam Friday" "2099-01-01T00:00:00" "t1"
                None Example.school).1,
             (create_announcement "Exam Friday" "2099-01-01T00:00:00" "t1"
                None Example.school).2)) as Hpair
    by (by destruct (create_announcement _ _ _ _ _)).
  assert ((create_announcement "Exam Friday" "2099-01-01T00:00:00" "t1" None
             Example.school).1
          = Return ("Announcement created successfully",
                    <["_id" := VStr "0000000000000000000000ff"]>
                      (new_announcement "Exam Friday" "2099-01-01T00:00:00"
                         "t1" None "2024-05-05T10:00:00.123456"))) as Hret
    by (vm_compute; reflexivity).
  rewrite Hret in Hpair.
  destruct (create_then_delete _ _ _ _ _ _ _ Hw Hbound Hpair)
    as (id & w2 & Hrest).
  exists id, w2. split; [exact Hpair|exact Hrest].
Defined.

(** X10. What [create_announcement] returns is what the listings then
    show: when the driver does not fail, after a creation that returns,
    [get_all_announcements] returns the returned record to the teacher,
    and [get_active_announcements] returns it if and only if
    [start_date] is absent or at most the time of the call and
    [end_date] is at least that time. *)
Theorem create_then_listed `{!Datetime}
    message end_date u start_date w r w1 :
  healthy w →
  create_announcement message end_date u start_date w = (Return r, w1) →
  ∃ listed shown,
    get_all_announcements u w1 = (Return listed, w1)
    ∧ r.2 ∈ listed
    ∧ get_active_announcements w1 = (Return shown, w1)
    ∧ (r.2 ∈ shown ↔ window_holds start_date end_date (clock w)).
Proof.
  intros Hw Hrun.
  rewrite create_announcement_healthy in Hrun by done.
  destruct (teacher_known u w) eqn:Hyes; [|done].
  destruct (dates_parse end_date start_date); [|done].
  cbn zeta in Hrun.
  destruct (existsb _ _) eqn:Hfresh; [done|].
  injection Hrun as <- <-.
  set (stored := <["_id" := VOid (generated_id w)]>
                   (new_announcement message end_date u start_date (clock w))).
  set (w1 := World (announcements w ++ [stored]) _ _ _ _ _).
  assert (healthy w1) as Hw1 by exact Hw.
  rewrite get_all_announcements_healthy by done.
  change (teacher_known u w1) with (teacher_known u w). rewrite Hyes.
  unfold get_active_announcements, try_except, bind, datetime_now_isoformat.
  rewrite find_sort_healthy by done. cbn [documents].
  eexists _, _. split; [reflexivity|]. cbn [snd].
  rewrite <- (serialize_stored _ (generated_id w)). fold stored.
  assert (stored ∈ announcements w1) as Hin
    by (apply elem_of_app; right; apply list_elem_of_singleton; done).
  split.
  - apply list_elem_of_fmap. exists stored. split; [done|].
    by rewrite merge_sort_Permutation, filter_everything.
  - split; [reflexivity|].
    destruct (active_selection (clock w1) (announcements w1)) as [_ Hiff].
    rewrite (Hiff stored Hin). apply currently_active_new.
Qed.

Lemma create_then_listed_witness :
  healthy Example.school
  ∧ ∃ r w1 listed shown,
      create_announcement "Exam Friday" "2099-01-01T00:00:00" "t1" None
        Example.school = (Return r, w1)
      ∧ get_all_announcements "t1" w1 = (Return listed, w1)
      ∧ r.2 ∈ listed
      ∧ get_active_announcements w1 = (Return shown, w1)
      ∧ (r.2 ∈ shown
         ↔ window_holds None "2099-01-01T00:00:00" (clock Example.school)).
Proof.
  assert (healthy Example.school) as Hw by reflexivity.
  split; [exact Hw|]. eexists _, _.
  assert (create_announcement "Exam Friday" "2099-01-01T00:00:00" "t1" None
            Example.school
          = ((create_announcement "Exam Friday" "2099-01-01T00:00:00" "t1"
                None Example.school).1,
             (create_announcement "Exam Friday" "2099-01-01T00:00:00" "t1"
                None Example.school).2)) as Hpair
    by (by destruct (create_announcement _ _ _ _ _)).
  assert ((create_announcement "Exam Friday" "2099-01-01T00:00:00" "t1" None
             Example.school).1
          = Return ("Announcement created successfully",
                    <["_id" := VStr "0000000000000000000000ff"]>
                      (new_announcement "Exam Friday" "2099-01-01T00:00:00"
                         "t1" None "2024-05-05T10:00:00.123456"))) as Hret
    by (vm_compute; reflexivity).
  rewrite Hret in Hpair.
  destruct (create_then_listed _ _ _ _ _ _ _ Hw Hpair)
    as (listed & shown & Hrest).
  exists listed, shown. split; [exact Hpair|exact Hrest].
Defined.

Lemma currently_active_flag now (d : doc) b :
  currently_active now (<["active" := VBool b]> d)
  ↔ b = true ∧ in_window now d.
Proof.
  unfold currently_active, in_window.
  rewrite lookup_insert_eq, !lookup_insert_ne by done.
  split.
  - intros ([= ->] & Hwin). done.
  - intros [-> Hwin]. done.
Qed.

(** X11. A toggle takes effect on the display at once: when the driver
    does not fail, after a call of [toggle_announcement_status] that
    returns, the message names the new state, and
    [get_active_announcements] returns the announcement if and only if
    the new state is active and its dates hold the time of the call. *)
Theorem toggle_then_shown announcement_id u w r w1 :
  healthy w →
  toggle_announcement_status announcement_id u w = (Return r, w1) →
  ∃ obj_id l1 d l2 shown,
    ObjectId announcement_id = Some obj_id
    ∧ announcements w = l1 ++ d :: l2
    ∧ absent obj_id l1
    ∧ d !! "_id" = Some (VOid obj_id)
    ∧ announcements w1 = l1 ++ <["active" := VBool r.2]> d :: l2
    ∧ r.1 = (if r.2 then "Announcement activated successfully"
             else "Announcement deactivated successfully")
    ∧ get_active_announcements w1 = (Return shown, w1)
    ∧ (serialize (<["active" := VBool r.2]> d) ∈ shown
       ↔ r.2 = true ∧ in_window (clock w) d).
Proof.
  intros Hw Hrun.
  assert (healthy w1 ∧ clock w1 = clock w
          ∧ r.1 = (if r.2 then "Announcement activated successfully"
                   else "Announcement deactivated successfully"))
    as (Hw1 & Hclock & Hmsg).
  { rewrite toggle_announcement_status_healthy in Hrun by done.
    destruct (teacher_known u w); [|done].
    destruct (ObjectId announcement_id); [|done].
    destruct (List.find _ _) as [a|]; [|done]. cbn zeta in Hrun.
    destruct (update_first _ _ _); [|done].
    injection Hrun as <- <-. repeat split; [exact Hw|].
    by destruct (negb (active_flag a)). }
  apply toggle_announcement_status_effect in Hrun
    as (obj_id & l1 & d & l2 & Hid & Hsplit & Hl1 & Hd & Hr & Ha & _).
  rewrite <- Hr in Ha.
  unfold get_active_announcements, try_except, bind, datetime_now_isoformat.
  rewrite find_sort_healthy by done. cbn [documents].
  exists obj_id, l1, d, l2. eexists.
  do 6 (split; [done|]). split; [reflexivity|].
  destruct (active_selection (clock w1) (announcements w1)) as [_ Hiff].
  rewrite Hiff, Hclock.
  - apply currently_active_flag.
  - rewrite Ha. apply elem_of_app. right. apply list_elem_of_here.
Qed.

Lemma toggle_then_shown_witness :
  healthy Example.school
  ∧ ∃ w1 shown,
      toggle_announcement_status "000000000000000000000002" "t1"
        Example.school
      = (Return ("Announcement deactivated successfully", false), w1)
      ∧ announcements w1
        = [ Example.expired; <["active" := VBool false]> Example.running;
            Example.legacy; Example.switched_off ]
      ∧ get_active_announcements w1 = (Return shown, w1)
      ∧ (serialize (<["active" := VBool false]> Example.running) ∈ shown
         ↔ false = true ∧ in_window (clock Example.school) Example.running).
Proof.
  assert (healthy Example.school) as Hw by reflexivity.
  split; [exact Hw|]. eexists.
  assert (toggle_announcement_status "000000000000000000000002" "t1"
            Example.school
          = (Return ("Announcement deactivated successfully", false),
             (toggle_announcement_status "000000000000000000000002" "t1"
                Example.school).2)) as Hrun by (vm_compute; reflexivity).
  destruct (toggle_then_shown _ _ _ _ _ Hw Hrun)
    as (obj_id & l1 & d & l2 & shown & Hid & Hsplit & Hl1 & Hd & Ha & _
        & Hshown & Hiff).
  injection Hid as <-.
  apply (first_with_id_unique 2 [Example.expired] l1
           [Example.legacy; Example.switched_off] l2 Example.running d)
    in Hsplit as (<- & <- & <-);
    [|apply absent_existsb; reflexivity|reflexivity|exact Hl1|exact Hd].
  exists shown. split; [exact Hrun|]. split; [exact Ha|].
  split; [exact Hshown|exact Hiff].
Defined.

(** X12. Sending the same update twice changes nothing the second time:
    whenever two calls of [update_announcement] with the same arguments
    return one after the other, in any world, the store after the
    second is the store after the first. *)
Theorem update_announcement_idempotent `{!Datetime}
    announcement_id message end_date u start_date active w r1 w1 r2 w2 :
  update_announcement announcement_id message end_date u start_date active w
  = (Return r1, w1) →
  update_announcement announcement_id message end_date u start_date active w1
  = (Return r2, w2) →
  same_store w1 w2.
Proof.
  intros (obj_id & l1 & d & l2 & Hid & Hsplit & Hl1 & Hd & Ha & Ht)
    %update_announcement_effect
    (obj_id' & l1' & d' & l2' & Hid' & Hsplit' & Hl1' & Hd' & Ha' & Ht')
    %update_announcement_effect.
  rewrite Hid in Hid'. injection Hid' as <-.
  rewrite Ha in Hsplit'.
  apply (first_with_id_unique obj_id) in Hsplit' as (<- & <- & <-);
    [|done|by rewrite updated_fields_keep_id|done..].
  split; [|done]. rewrite Ha', Ha.
  by rewrite (assoc_L (∪)), (idemp_L (∪)).
Qed.

Lemma update_announcement_idempotent_witness :
  ∃ w1 w2,
    update_announcement "000000000000000000000004" " Bake sale moved "
      "2099-02-01T00:00:00Z" "t1" None false Example.school
    = (Return "Announcement updated successfully", w1)
    ∧ update_announcement "000000000000000000000004" " Bake sale moved "
        "2099-02-01T00:00:00Z" "t1" None false w1
      = (Return "Announcement updated successfully", w2)
    ∧ same_store w1 w2.
Proof.
  eexists _, _.
  assert (update_announcement "000000000000000000000004" " Bake sale moved "
            "2099-02-01T00:00:00Z" "t1" None false Example.school
          = (Return "Announcement updated successfully",
             (update_announcement "000000000000000000000004"
                " Bake sale moved " "2099-02-01T00:00:00Z" "t1" None false
                Example.school).2)) as Hrun1 by (vm_compute; reflexivity).
  assert (update_announcement "000000000000000000000004" " Bake sale moved "
            "2099-02-01T00:00:00Z" "t1" None false
            (update_announcement "000000000000000000000004"
               " Bake sale moved " "2099-02-01T00:00:00Z" "t1" None false
               Example.school).2
          = (Return "Announcement updated successfully",
             (update_announcement "000000000000000000000004"
                " Bake sale moved " "2099-02-01T00:00:00Z" "t1" None false
                (update_announcement "000000000000000000000004"
                   " Bake sale moved " "2099-02-01T00:00:00Z" "t1" None false
                   Example.school).2).2)) as Hrun2
    by (vm_compute; reflexivity).
  split; [exact Hrun1|]. split; [exact Hrun2|].
  exact (update_announcement_idempotent _ _ _ _ _ _ _ _ _ _ _ Hrun1 Hrun2).
Defined.

(** ** More errors *)

(** X13. When the driver does not fail, for a known teacher and a
    well-formed identifier that no announcement has,
    [toggle_announcement_status] raises 404 and the world is the one
    before the call. *)
Theorem toggle_announcement_status_not_found announcement_id u obj_id w :
  healthy w →
  teacher_exists u w →
  ObjectId announcement_id = Some obj_id →
  absent obj_id (announcements w) →
  toggle_announcement_status announcement_id u w
  = (Raise (HTTPException 404 "Announcement not found"), w).
Proof.
  intros Hw Hyes%teacher_known_exists Hid Hno%absent_no_match%find_None.
  rewrite toggle_announcement_status_healthy by done.
  by rewrite Hyes, Hid, Hno.
Qed.

Lemma toggle_announcement_status_not_found_witness :
  healthy Example.school
  ∧ teacher_exists "t1" Example.school
  ∧ ObjectId "000000000000000000000009" = Some 9%N
  ∧ absent 9 (announcements Example.school)
  ∧ toggle_announcement_status "000000000000000000000009" "t1" Example.school
    = (Raise (HTTPException 404 "Announcement not found"), Example.school).
Proof.
  assert (healthy Example.school) as Hw by reflexivity.
  assert (teacher_exists "t1" Example.school) as Hyes
    by (apply teacher_known_exists; reflexivity).
  assert (absent 9 (announcements Example.school)) as Hno
    by (apply absent_existsb; reflexivity).
  split; [exact Hw|]. split; [exact Hyes|]. split; [reflexivity|].
  split; [exact Hno|].
  exact (toggle_announcement_status_not_found "000000000000000000000009" "t1"
           9 Example.school Hw Hyes eq_refl Hno).
Defined.

(** X14. [update_announcement] validates the dates before it touches the
    store: when the driver does not fail, for a known teacher and a
    well-formed identifier, an [end_date], or a [start_date] that is
    given and not empty, that [fromisoformat] rejects after ["Z"] is
    written ["+00:00"] makes it raise 400 "Invalid date format",
    whether an announcement has the identifier or not, and the world is
    the one before the call. *)
Theorem update_announcement_invalid_dates `{!Datetime}
    announcement_id message end_date u start_date active obj_id w :
  healthy w →
  teacher_exists u w →
  ObjectId announcement_id = Some obj_id →
  fromisoformat (Str.replace "Z" "+00:00" end_date) = false
  ∨ (∃ s, start_date = Some s ∧ s ≠ EmptyString
          ∧ fromisoformat (Str.replace "Z" "+00:00" s) = false) →
  update_announcement announcement_id message end_date u start_date active w
  = (Raise (HTTPException 400 "Invalid date format"), w).
Proof.
  intros Hw Hyes%teacher_known_exists Hid Hbad%dates_parse_false.
  rewrite update_announcement_healthy by done.
  by rewrite Hyes, Hid, Hbad.
Qed.

Lemma update_announcement_invalid_dates_witness :
  healthy Example.school
  ∧ teacher_exists "t1" Example.school
  ∧ ObjectId "000000000000000000000004" = Some 4%N
  ∧ fromisoformat (Str.replace "Z" "+00:00" "tomorrow") = false
  ∧ update_announcement "000000000000000000000004" "Bake sale"
      "2099-01-01T00:00:00" "t1" (Some "tomorrow") true Example.school
    = (Raise (HTTPException 400 "Invalid date format"), Example.school).
Proof.
  assert (healthy Example.school) as Hw by reflexivity.
  assert (teacher_exists "t1" Example.school) as Hyes
    by (apply teacher_known_exists; reflexivity).
  split; [exact Hw|]. split; [exact Hyes|]. split; [reflexivity|].
  split; [reflexivity|].
  apply (update_announcement_invalid_dates "000000000000000000000004"
           "Bake sale" "2099-01-01T00:00:00" "t1" (Some "tomorrow") true 4
           Example.school Hw Hyes eq_refl).
  right. exists "tomorrow". by repeat split.
Defined.

(** ** From a listing to a mutation *)

(** X15. The identifiers that [get_all_announcements] shows can be used
    as they are: when the driver does not fail and the stored
    identifiers are [ObjectId]s, every listed announcement has a string
    ["_id"] that [ObjectId] reads, and [delete_announcement] and
    [toggle_announcement_status] called with it by the teacher find an
    announcement and return. *)
Theorem listed_ids_are_handles u w :
  healthy w →
  teacher_exists u w →
  object_ids (announcements w) →
  ∃ listed,
    get_all_announcements u w = (Return listed, w)
    ∧ ∀ x, x ∈ listed →
        ∃ id obj_id,
          x !! "_id" = Some (VStr id)
          ∧ ObjectId id = Some obj_id
          ∧ (∃ w', delete_announcement id u w
                   = (Return "Announcement deleted successfully", w'))
          ∧ (∃ r w', toggle_announcement_status id u w = (Return r, w')).
Proof.
  intros Hw Hyes%teacher_known_exists Hids.
  rewrite get_all_announcements_healthy, Hyes by done.
  eexists. split; [reflexivity|].
  intros x (d & -> & Hd)%list_elem_of_fmap.
  rewrite merge_sort_Permutation, filter_everything in Hd.
  unfold object_ids in Hids. rewrite Forall_forall in Hids.
  destruct (Hids d Hd) as (o & Ho & Hbound).
  exists (str_oid o), o.
  split; [unfold serialize; rewrite Ho; apply lookup_insert_eq|].
  split; [by apply ObjectId_str_oid|].
  destruct (first_with_id o (announcements w))
    as [Hno|(l1 & a & l2 & Hsplit & Hl1 & Ha)].
  { unfold absent in Hno. rewrite Forall_forall in Hno.
    by destruct (Hno d Hd). }
  split.
  - rewrite delete_announcement_healthy by done.
    rewrite Hyes, ObjectId_str_oid, Hsplit by done.
    rewrite remove_first_first;
      [|by apply absent_no_match|by apply q_is_true].
    by eexists.
  - rewrite toggle_announcement_status_healthy by done.
    rewrite Hyes, ObjectId_str_oid, Hsplit by done.
    rewrite find_first; [|by apply absent_no_match|by apply q_is_true].
    cbn zeta.
    rewrite update_first_first;
      [|by apply absent_no_match|by apply q_is_true].
    by eexists _, _.
Qed.

Lemma listed_ids_are_handles_witness :
  healthy Example.school
  ∧ teacher_exists "t1" Example.school
  ∧ object_ids (announcements Example.school)
  ∧ ∃ listed,
      get_all_announcements "t1" Example.school
      = (Return listed, Example.school)
      ∧ ∀ x, x ∈ listed →
          ∃ id obj_id,
            x !! "_id" = Some (VStr id)
            ∧ ObjectId id = Some obj_id
            ∧ (∃ w', delete_announcement id "t1" Example.school
                     = (Return "Announcement deleted successfully", w'))
            ∧ (∃ r w', toggle_announcement_status id "t1" Example.school
                       = (Return r, w')).
Proof.
  assert (healthy Example.school) as Hw by reflexivity.
  assert (teacher_exists "t1" Example.school) as Hyes
    by (apply teacher_known_exists; reflexivity).
  assert (object_ids (announcements Example.school)) as Hids.
  { repeat constructor; eexists; (split; [reflexivity|reflexivity]). }
  split; [exact Hw|]. split; [exact Hyes|]. split; [exact Hids|].
  exact (listed_ids_are_handles "t1" Example.school Hw Hyes Hids).
Defined.

(** ** What no request does *)

(** X16. No endpoint of the router writes to the teacher directory: in
    any world and whatever a request returns or raises, the teachers
    are what they were. *)
Theorem teachers_never_written `{!Datetime} w :
  teachers (get_active_announcements w).2 = teachers w
  ∧ (∀ u, teachers (get_all_announcements u w).2 = teachers w)
  ∧ (∀ message end_date u start_date,
       teachers (create_announcement message end_date u start_date w).2
       = teachers w)
  ∧ (∀ announcement_id message end_date u start_date active,
       teachers
         (update_announcement announcement_id message end_date u start_date
            active w).2 = teachers w)
  ∧ (∀ announcement_id u,
       teachers (delete_announcement announcement_id u w).2 = teachers w)
  ∧ (∀ announcement_id u,
       teachers (toggle_announcement_status announcement_id u w).2
       = teachers w).
Proof.
  split; [|split; [|split; [|split; [|split]]]]; intros *.
  - apply get_active_announcements_never_raises_store.
  - apply get_all_announcements_store.
  - destruct (create_announcement _ _ _ _ _) as [o w'] eqn:Hrun.
    open_run Hrun; by injection Hrun as <- <-.
  - destruct (update_announcement _ _ _ _ _ _ _) as [o w'] eqn:Hrun.
    open_run Hrun; by injection Hrun as <- <-.
  - destruct (delete_announcement _ _ _) as [o w'] eqn:Hrun.
    open_run Hrun; by injection Hrun as <- <-.
  - destruct (toggle_announcement_status _ _ _) as [o w'] eqn:Hrun.
    open_run Hrun; by injection Hrun as <- <-.
Qed.

(** X17. [create_announcement] does not compare the two dates: when the
    driver does not fail, a known teacher whose dates parse creates an
    announcement whose [start_date] is after its [end_date], and
    [get_active_announcements] shows that announcement at no time. *)
Theorem inverted_window_never_shown `{!Datetime}
    message end_date u start w :
  healthy w →
  teacher_exists u w →
  dates_parse end_date (Some start) = true →
  absent (generated_id w) (announcements w) →
  String.ltb end_date start = true →
  ∃ r w1,
    create_announcement message end_date u (Some start) w = (Return r, w1)
    ∧ ∀ now, ∃ shown,
        get_active_announcements (set_clock now w1)
        = (Return shown, set_clock now w1)
        ∧ r.2 ∉ shown.
Proof.
  intros Hw Hyes%teacher_known_exists Hdates Hfresh%absent_existsb Hlt.
  rewrite create_announcement_healthy by done.
  rewrite Hyes, Hdates. cbn zeta. rewrite Hfresh.
  eexists _, _. split; [reflexivity|]. intros now.
  set (stored := <["_id" := VOid (generated_id w)]>
                   (new_announcement message end_date u (Some start)
                      (clock w))).
  set (w1 := World (announcements w ++ [stored]) _ _ _ _ _).
  assert (healthy (set_clock now w1)) as Hw1 by exact Hw.
  unfold get_active_announcements, try_except, bind, datetime_now_isoformat.
  rewrite find_sort_healthy by done. cbn [documents snd].
  eexists. split; [reflexivity|].
  rewrite <- (serialize_stored _ (generated_id w)). fold stored.
  destruct (active_selection now (announcements w ++ [stored])) as [_ Hiff].
  change (clock (set_clock now w1)) with now.
  change (announcements (set_clock now w1))
    with (announcements w ++ [stored]).
  rewrite Hiff
    by (apply elem_of_app; right; apply list_elem_of_here).
  unfold currently_active.
  change (stored !! "start_date") with (Some (VStr start)).
  change (stored !! "end_date") with (Some (VStr end_date)).
  intros (_ & [[=]|[[=]|(s & [= <-] & Hs)]] & e & [= <-] & He).
  pose proof (string_leb_trans _ _ _ Hs He) as Hle.
  unfold String.ltb in Hlt. unfold String.leb in Hle.
  rewrite String.compare_antisym in Hle.
  by destruct (String.compare end_date start).
Qed.

Lemma inverted_window_never_shown_witness :
  healthy Example.school
  ∧ teacher_exists "t1" Example.school
  ∧ dates_parse "2024-01-01T00:00:00" (Some "2030-01-01T00:00:00") = true
  ∧ absent (generated_id Example.school) (announcements Example.school)
  ∧ String.ltb "2024-01-01T00:00:00" "2030-01-01T00:00:00" = true
  ∧ ∃ r w1,
      create_announcement "Exam Friday" "2024-01-01T00:00:00" "t1"
        (Some "2030-01-01T00:00:00") Example.school = (Return r, w1)
      ∧ ∀ now, ∃ shown,
          get_active_announcements (set_clock now w1)
          = (Return shown, set_clock now w1)
          ∧ r.2 ∉ shown.
Proof.
  assert (healthy Example.school) as Hw by reflexivity.
  assert (teacher_exists "t1" Example.school) as Hyes
    by (apply teacher_known_exists; reflexivity).
  assert (absent (generated_id Example.school) (announcements Example.school))
    as Hfresh by (apply absent_existsb; reflexivity).
  split; [exact Hw|]. split; [exact Hyes|]. split; [reflexivity|].
  split; [exact Hfresh|]. split; [reflexivity|].
  exact (inverted_window_never_shown "Exam Friday" "2024-01-01T00:00:00" "t1"
           "2030-01-01T00:00:00" Example.school Hw Hyes eq_refl Hfresh eq_refl).
Defined.
